(** * DatumSystems/linux: the MCP9902 hwmon driver and the DSA master device

    A shallow embedding of
      - drivers/hwmon/mcp9902.c  (module [Mcp9902]) and
      - net/dsa/master.c         (module [Master]),
    with the C integer conversions and the few printf/scanf conversions
    the two files use (module [CLib]).

    C integers are [Z] with their wrap-around written out, byte buffers
    are [list Z], the text written to a sysfs file is a [string] and the
    text a show handler prints is a [list ascii]; the effects of a call
    (bus arbiter, delays, bus transactions, driver hooks) are recorded in
    an explicit event trace that is threaded through the calls.

    The definitions come first (modules [CLib], [Mcp9902], [Master] and
    the concrete devices of [Fixtures]); the properties follow in
    [Mcp9902_props] and [Master_props]. *)

From Stdlib Require Import ZArith Lia String Ascii.
From stdpp Require Import base list gmap.

Open Scope Z_scope.

(* ===================================================================== *)
(** ** C integers, errno values and printf/scanf conversions             *)
(* ===================================================================== *)

Module CLib.

(** Conversion to an unsigned integer of [w] bits. *)
Definition wrap_u (w x : Z) : Z := x mod 2 ^ w.

(** Conversion to a signed integer of [w] bits (two's complement; the
    kernel is built with -fno-strict-overflow, so arithmetic wraps). *)
Definition wrap_s (w x : Z) : Z := (x + 2 ^ (w - 1)) mod 2 ^ w - 2 ^ (w - 1).

Definition u8 : Z -> Z := wrap_u 8.
Definition u16 : Z -> Z := wrap_u 16.
Definition u32 : Z -> Z := wrap_u 32.
Definition u64 : Z -> Z := wrap_u 64.
Definition int : Z -> Z := wrap_s 32.

(** errno values (include/uapi/asm-generic/errno-base.h and errno.h). *)
Definition EPERM : Z := 1.
Definition EIO : Z := 5.
Definition EBUSY : Z := 16.
Definition EINVAL : Z := 22.
Definition ENOPROTOOPT : Z := 92.
Definition EOPNOTSUPP : Z := 95.

(** *** printf conversions

    [number()] of lib/vsprintf.c produces the digits least significant
    first and stops when the rest is zero; the digits are then emitted in
    reverse. The fuel bounds the number of digits (a 64-bit value has at
    most 20 decimal and 16 hexadecimal digits). *)

Definition digit_char (d : Z) : ascii :=
  if d <? 10 then ascii_of_nat (48 + Z.to_nat d)
  else ascii_of_nat (87 + Z.to_nat d).

Fixpoint digits_rev (base : Z) (fuel : nat) (num : Z) : list ascii :=
  match fuel with
  | O => []
  | S fuel' =>
      digit_char (num mod base)
        :: (if num / base =? 0 then [] else digits_rev base fuel' (num / base))
  end.

Definition digits (base num : Z) : list ascii := rev (digits_rev base 64 num).

(** Zero padding up to a precision (the [.2] of "%.2d"). *)
Definition zero_pad (prec : nat) (ds : list ascii) : list ascii :=
  replicate (prec - length ds)%nat "0"%char ++ ds.

(** "%d" with an optional precision, for an [int] argument. *)
Definition fmt_d_prec (prec : nat) (v : Z) : list ascii :=
  if v <? 0 then "-"%char :: zero_pad prec (digits 10 (- v))
  else zero_pad prec (digits 10 v).

Definition fmt_d (v : Z) : list ascii := fmt_d_prec 0 v.

(** "%hhx", "%hx", "%x", "%llx": the argument converted to unsigned char,
    unsigned short, unsigned int, unsigned long long, in lower-case
    hexadecimal, with neither width nor precision. *)
Definition fmt_hhx (v : Z) : list ascii := digits 16 (u8 v).
Definition fmt_hx (v : Z) : list ascii := digits 16 (u16 v).
Definition fmt_x (v : Z) : list ascii := digits 16 (u32 v).
Definition fmt_llx (v : Z) : list ascii := digits 16 (u64 v).

Definition nl : ascii := ascii_of_nat 10.

(** *** scanf conversions *)

(** isspace of lib/ctype.c. *)
Definition isspace (c : ascii) : bool :=
  let n := nat_of_ascii c in
  ((9 <=? n) && (n <=? 13) || (n =? 32) || (n =? 160))%nat.

Fixpoint skip_spaces (s : list ascii) : list ascii :=
  match s with
  | c :: s' => if isspace c then skip_spaces s' else s
  | [] => []
  end.

(** The value of [c] as a digit of [base], if it is one. *)
Definition digit_val (base : Z) (c : ascii) : option Z :=
  let n := Z.of_nat (nat_of_ascii c) in
  let v := if (48 <=? n) && (n <=? 57) then n - 48
           else if (97 <=? n) && (n <=? 102) then n - 87
           else if (65 <=? n) && (n <=? 70) then n - 55
           else 16 in
  if v <? base then Some v else None.

Fixpoint parse_digits (base : Z) (s : list ascii) (acc : Z) : Z * list ascii :=
  match s with
  | c :: s' =>
      match digit_val base c with
      | Some v => parse_digits base s' (acc * base + v)
      | None => (acc, s)
      end
  | [] => (acc, [])
  end.

(** A base-16 number may start with "0x". *)
Definition fixup_radix (base : Z) (s : list ascii) : list ascii :=
  match s with
  | c0 :: c1 :: s' =>
      if (base =? 16) && Ascii.eqb c0 "0" && (Ascii.eqb c1 "x" || Ascii.eqb c1 "X")
      then s' else s
  | _ => s
  end.

(** The integer conversions of the formats in use. *)
Inductive conv : Type :=
  | Conv_d        (* %d    -> int *)
  | Conv_hx       (* %hx   -> unsigned short *)
  | Conv_hhx      (* %hhx  -> unsigned char *)
  | Conv_llx.     (* %llx  -> unsigned long long *)

Definition conv_base (c : conv) : Z := match c with Conv_d => 10 | _ => 16 end.
Definition conv_signed (c : conv) : bool := match c with Conv_d => true | _ => false end.
Definition conv_store (c : conv) (v : Z) : Z :=
  match c with
  | Conv_d => int v | Conv_hx => u16 v | Conv_hhx => u8 v | Conv_llx => u64 v
  end.

Inductive fmt_item : Type :=
  | Lit (c : ascii)
  | Field (c : conv).

(** One integer field: skip white space, accept '-' when signed, require
    a first digit of the base, take the longest run of digits; [None]
    when the input does not start a number. *)
Definition scan_int (c : conv) (str : list ascii) : option (Z * list ascii) :=
  let str := skip_spaces str in
  let '(neg, body) :=
    match str with
    | ch :: rest =>
        if conv_signed c && Ascii.eqb ch "-" then (true, rest) else (false, str)
    | [] => (false, str)
    end in
  match body with
  | ch :: _ =>
      match digit_val (conv_base c) ch with
      | Some _ =>
          let '(v, rest) :=
            parse_digits (conv_base c) (fixup_radix (conv_base c) body) 0 in
          Some (conv_store c (if neg then - v else v), rest)
      | None => None
      end
  | [] => None
  end.

(** Modelled from the spec: sscanf (vsscanf of lib/vsprintf.c, which is
    not among the sources), for the formats of the control surface
    ("<port-index>:<hex-value>", "<page-hex>:<reg-hex>:<width-hex>", ...).
    The fields are scanned from left to right, a literal must match the
    next input character, and scanning stops at the first mismatch or at
    the end of the input; the result lists the values assigned, so its
    length is the return value of sscanf. *)
Fixpoint vsscanf (fmt : list fmt_item) (str : list ascii) : list Z :=
  match fmt with
  | [] => []
  | Lit c :: fmt' =>
      match str with
      | c' :: str' => if Ascii.eqb c c' then vsscanf fmt' str' else []
      | [] => []
      end
  | Field c :: fmt' =>
      match str with
      | [] => []
      | _ :: _ =>
          match scan_int c str with
          | Some (v, rest) => v :: vsscanf fmt' rest
          | None => []
          end
      end
  end.

Definition sscanf (buf : string) (fmt : list fmt_item) : list Z :=
  vsscanf fmt (list_ascii_of_string buf).

(** *** Memory *)

Definition byte_of (c : ascii) : Z := Z.of_nat (nat_of_ascii c).

(** memcpy(buf + dst, src, |src|) and memmove(buf + dst, buf + src, n)
    inside one buffer. A write past the end of the buffer (undefined in
    C) is dropped here: the buffer keeps its length. *)
Definition memcpy (buf : list Z) (dst : nat) (src : list Z) : list Z :=
  list_inserts dst src buf.

Definition memmove (buf : list Z) (dst src n : nat) : list Z :=
  memcpy buf dst (take n (drop src buf)).

(** A callee that is handed the pointer [buf + off]: it sees, and may
    rewrite, the memory from there on. *)
Definition at_offset (off : nat) (f : list Z -> list Z) (buf : list Z) : list Z :=
  take off buf ++ f (drop off buf).

(** snprintf(dst, size, ...) of the text [s]: at most [size - 1]
    characters and a terminating NUL. *)
Definition snprintf (size : nat) (s : list ascii) : list Z :=
  take (size - 1) (byte_of <$> s) ++ [0].

End CLib.
Import CLib.

(* ===================================================================== *)
(** ** drivers/hwmon/mcp9902.c                                           *)
(* ===================================================================== *)

Module Mcp9902.

Definition MCP9902_REG_R_STATUS : Z := 0x02.
Definition MCP9902_REG_R_LOCAL_TEMP : Z := 0x00.
Definition MCP9902_REG_R_LOCAL_TEMP_FRACTION : Z := 0x29.
Definition MCP9902_REG_R_REMOTE_TEMP : Z := 0x01.
Definition MCP9902_REG_R_REMOTE_TEMP_FRACTION : Z := 0x10.
Definition MCP9902_REG_R_LOCAL_HIGH : Z := 0x05.
Definition MCP9902_REG_W_LOCAL_HIGH : Z := 0x0B.
Definition MCP9902_REG_R_LOCAL_LOW : Z := 0x06.
Definition MCP9902_REG_W_LOCAL_LOW : Z := 0x0C.
Definition MCP9902_REG_R_REMOTE_HIGH : Z := 0x07.
Definition MCP9902_REG_W_REMOTE_HIGH : Z := 0x0D.
Definition MCP9902_REG_R_REMOTE_LOW : Z := 0x08.
Definition MCP9902_REG_W_REMOTE_LOW : Z := 0x0E.
Definition MCP9902_REG_R_REMOTE_CRIT : Z := 0x19.
Definition MCP9902_REG_W_REMOTE_CRIT : Z := 0x19.
Definition MCP9902_REG_R_LOCAL_CRIT : Z := 0x20.
Definition MCP9902_REG_W_LOCAL_CRIT : Z := 0x20.
Definition MCP9902_REG_R_TCRIT_HYST : Z := 0x21.
Definition MCP9902_REG_W_TCRIT_HYST : Z := 0x21.

(** What a call does to the outside world, in program order. *)
Inductive event : Type :=
  | Update_lock                     (* mutex_lock(&data->update_lock) *)
  | Update_unlock                   (* mutex_unlock(&data->update_lock) *)
  | Spi_mutex_lock                  (* mutex_lock(&datum_b53_spi_mutex) *)
  | Spi_mutex_unlock                (* mutex_unlock(&datum_b53_spi_mutex) *)
  | Usleep_range (min max : Z)
  | Msleep (ms : Z)
  | I2c_read (reg : Z)
  | I2c_write (reg val : Z).

Definition is_delay (e : event) : bool :=
  match e with
  | Usleep_range _ _ | Msleep _ => true
  | _ => false
  end.

Definition spi_lock (tr : list event) : list event := tr ++ [Spi_mutex_lock].

(** [suspended] is the answer of pm_runtime_suspended(dev). Only the
    usleep_range is under the [if]. *)
Definition spi_unlock (suspended : bool) (tr : list event) : list event :=
  let tr := if negb suspended then tr ++ [Usleep_range 100 200] else tr in
  let tr := tr ++ [Msleep 1] in
  tr ++ [Spi_mutex_unlock].

(** *** Conversions *)

Definition temp_from_reg (val fraction : Z) : Z :=
  int ((val - 64) * 1000 + Z.shiftr (Z.land fraction 0xE0) 5 * 125).

(** C division truncates towards zero: [Z.quot]. *)
Definition temp_to_reg (val : Z) : Z :=
  Z.quot (int (val + 64)) 1000.

Inductive temp_index : Type :=
  | t_input1 | t_input1_fraction | t_input2 | t_input2_fraction
  | t_low1 | t_high1 | t_crit1 | t_low2 | t_high2 | t_crit2 | t_hyst.

Definition index_of (i : temp_index) : nat :=
  match i with
  | t_input1 => 0 | t_input1_fraction => 1 | t_input2 => 2
  | t_input2_fraction => 3 | t_low1 => 4 | t_high1 => 5 | t_crit1 => 6
  | t_low2 => 7 | t_high2 => 8 | t_crit2 => 9 | t_hyst => 10
  end%nat.

Definition t_num_regs : nat := 11.

(** The indices in increasing order, as the refresh loop visits them. *)
Definition all_regs : list temp_index :=
  [t_input1; t_input1_fraction; t_input2; t_input2_fraction;
   t_low1; t_high1; t_crit1; t_low2; t_high2; t_crit2; t_hyst].

Definition regs_read (i : temp_index) : Z :=
  match i with
  | t_input1 => MCP9902_REG_R_LOCAL_TEMP
  | t_input1_fraction => MCP9902_REG_R_LOCAL_TEMP_FRACTION
  | t_input2 => MCP9902_REG_R_REMOTE_TEMP
  | t_input2_fraction => MCP9902_REG_R_REMOTE_TEMP_FRACTION
  | t_low1 => MCP9902_REG_R_LOCAL_LOW
  | t_high1 => MCP9902_REG_R_LOCAL_HIGH
  | t_crit1 => MCP9902_REG_R_LOCAL_CRIT
  | t_low2 => MCP9902_REG_R_REMOTE_LOW
  | t_high2 => MCP9902_REG_R_REMOTE_HIGH
  | t_crit2 => MCP9902_REG_R_REMOTE_CRIT
  | t_hyst => MCP9902_REG_R_TCRIT_HYST
  end.

(** Entries without an initialiser are zero. *)
Definition regs_write (i : temp_index) : Z :=
  match i with
  | t_low1 => MCP9902_REG_W_LOCAL_LOW
  | t_high1 => MCP9902_REG_W_LOCAL_HIGH
  | t_crit1 => MCP9902_REG_W_LOCAL_CRIT
  | t_low2 => MCP9902_REG_W_REMOTE_LOW
  | t_high2 => MCP9902_REG_W_REMOTE_HIGH
  | t_crit2 => MCP9902_REG_W_REMOTE_CRIT
  | t_hyst => MCP9902_REG_W_TCRIT_HYST
  | _ => 0
  end.

(** *** Client data *)

Record mcp9902_data : Type := {
  valid : bool;
  last_updated : Z;          (* unsigned long, in jiffies *)
  temp : list Z;             (* u8 temp[t_num_regs] *)
  alarms : Z                 (* u8 *)
}.

(** devm_kzalloc: everything zero. *)
Definition fresh_data : mcp9902_data :=
  {| valid := false; last_updated := 0;
     temp := replicate t_num_regs 0; alarms := 0 |}.

Definition get_temp (d : mcp9902_data) (i : temp_index) : Z :=
  default 0 (temp d !! index_of i).

Definition set_temp (d : mcp9902_data) (i : temp_index) (v : Z) : mcp9902_data :=
  {| valid := valid d; last_updated := last_updated d;
     temp := <[index_of i := u8 v]> (temp d); alarms := alarms d |}.

Definition wf_data (d : mcp9902_data) : Prop :=
  length (temp d) = t_num_regs /\ Forall (fun b => 0 <= b < 256) (temp d).

Definition set_alarms (d : mcp9902_data) (v : Z) : mcp9902_data :=
  {| valid := valid d; last_updated := last_updated d;
     temp := temp d; alarms := u8 v |}.

(** time_after(a, b) is (long)(b - a) < 0 on unsigned long (64 bits). *)
Definition time_after (a b : Z) : bool := wrap_s 64 (b - a) <? 0.

(** *** The refresh

    [chip t reg] is what i2c_smbus_read_byte_data answers for register
    [reg] when the transaction is the [t]-th event of the trace (an s32:
    a byte, or a negative errno, which the u8 store truncates). *)
Definition i2c_read (chip : nat -> Z -> Z) (tr : list event) (reg : Z)
  : Z * list event :=
  (chip (length tr) reg, tr ++ [I2c_read reg]).

(** for (i = 0; i < t_num_regs; i++) data->temp[i] = read(regs_read[i]) *)
Definition read_regs (chip : nat -> Z -> Z)
    (st : mcp9902_data * list event) : mcp9902_data * list event :=
  foldl (fun st i =>
           let '(v, tr) := i2c_read chip st.2 (regs_read i) in
           (set_temp st.1 i v, tr))
        st all_regs.

(** One pass of the [j] loop. *)
Definition read_burst (chip : nat -> Z -> Z) (suspended : bool)
    (st : mcp9902_data * list event) : mcp9902_data * list event :=
  let tr := spi_lock st.2 in
  let '(d, tr) := read_regs chip (st.1, tr) in
  let '(v, tr) := i2c_read chip tr MCP9902_REG_R_STATUS in
  (set_alarms d v, spi_unlock suspended tr).

Definition mcp9902_update_device (jiffies : Z) (chip : nat -> Z -> Z)
    (suspended : bool) (st : mcp9902_data * list event)
  : mcp9902_data * list event :=
  let d := st.1 in
  let tr := st.2 ++ [Update_lock] in
  let '(d, tr) :=
    if time_after jiffies (u64 (last_updated d + 1)) || negb (valid d) then
      let '(d, tr) := Nat.iter 20 (read_burst chip suspended) (d, tr) in
      ({| valid := true; last_updated := jiffies;
          temp := temp d; alarms := alarms d |}, tr)
    else (d, tr) in
  (d, tr ++ [Update_unlock]).

(** *** Sysfs *)

(** The fraction byte that temp_show pairs with index [i]. *)
Definition fraction_reg (d : mcp9902_data) (i : temp_index) : Z :=
  match i with
  | t_input1 => get_temp d t_input1_fraction
  | t_input2 => get_temp d t_input2_fraction
  | _ => 0
  end.

(** temp_show: the text put in [buf] (the return value is its length),
    and the device afterwards. *)
Definition temp_show (jiffies : Z) (chip : nat -> Z -> Z) (suspended : bool)
    (i : temp_index) (st : mcp9902_data * list event)
  : list ascii * (mcp9902_data * list event) :=
  let st := mcp9902_update_device jiffies chip suspended st in
  let d := st.1 in
  (fmt_d (temp_from_reg (get_temp d i) (fraction_reg d i)) ++ [nl], st).

(** temp_store. [kstrtol buf base] is the pair (error, value) of
    lib/kstrtox.c, which is not part of these sources; the value is a
    long, converted to int for temp_to_reg and to u8 by the store. *)
Definition temp_store (kstrtol : string -> Z -> Z * Z) (suspended : bool)
    (i : temp_index) (buf : string) (count : Z)
    (st : mcp9902_data * list event)
  : Z * (mcp9902_data * list event) :=
  let '(err, val) := kstrtol buf 10 in
  if negb (err =? 0) then (err, st)
  else
    let tr := st.2 ++ [Update_lock] in
    let d := set_temp st.1 i (temp_to_reg (int val)) in
    let tr := spi_lock tr in
    let tr := tr ++ [I2c_write (regs_write i) (get_temp d i)] in
    let tr := spi_unlock suspended tr in
    (count, (d, tr ++ [Update_unlock])).

Definition alarms_show (jiffies : Z) (chip : nat -> Z -> Z) (suspended : bool)
    (st : mcp9902_data * list event)
  : list ascii * (mcp9902_data * list event) :=
  let st := mcp9902_update_device jiffies chip suspended st in
  (fmt_d (alarms st.1) ++ [nl], st).

Definition alarm_show (jiffies : Z) (chip : nat -> Z -> Z) (suspended : bool)
    (bitnr : Z) (st : mcp9902_data * list event)
  : list ascii * (mcp9902_data * list event) :=
  let st := mcp9902_update_device jiffies chip suspended st in
  (fmt_d (Z.land (Z.shiftr (alarms st.1) bitnr) 1) ++ [nl], st).

End Mcp9902.


(* ===================================================================== *)
(** ** net/dsa/master.c                                                  *)
(* ===================================================================== *)

Module Master.

Definition ETH_GSTRING_LEN : nat := 32.
Definition ETH_SS_PHY_STATS : Z := 7.
Definition SIOCSHWTSTAMP : Z := 0x89b0.
Definition SIOCGHWTSTAMP : Z := 0x89b1.

(** *** Tag drivers *)

Record dsa_device_ops : Type := {
  name : string;
  proto : Z;
  promisc_on_master : bool
}.

(** A registered tag driver: its ops and whether its module can be
    pinned (try_module_get). A [const struct dsa_device_ops *] is the
    position of the driver in the registry. *)
Record dsa_tag_driver : Type := {
  ops : dsa_device_ops;
  available : bool
}.

(** sysfs_streq: equal up to one trailing newline. *)
Fixpoint sysfs_streq (s1 s2 : list ascii) : bool :=
  match s1, s2 with
  | [], [] => true
  | [], c :: r | c :: r, [] =>
      Ascii.eqb c nl && match r with [] => true | _ => false end
  | c1 :: r1, c2 :: r2 =>
      if Ascii.eqb c1 c2 then sysfs_streq r1 r2 else false
  end.

(** The first registered driver with that name. *)
Fixpoint lookup_by_name (drivers : list dsa_tag_driver) (buf : list ascii)
    (pos : nat) : option (nat * dsa_tag_driver) :=
  match drivers with
  | [] => None
  | drv :: rest =>
      if sysfs_streq buf (list_ascii_of_string (name (ops drv)))
      then Some (pos, drv)
      else lookup_by_name rest buf (S pos)
  end.

(** *** The switch driver hooks that master.c calls

    A hook is a function pointer and may be NULL ([None]); it acts on the
    private data [priv] of the switch it is called with. *)
Section Driver.
Context {priv : Type}.

Record dsa_switch_ops : Type := {
  change_tag_protocol : option (priv -> Z -> Z -> Z * priv);
  port_get_pvlan : option (priv -> Z -> Z * priv);
  port_change_pvlan : option (priv -> Z -> Z -> Z * priv);
  switch_setup_get_reg : option (priv -> Z -> Z -> Z -> Z * priv);
  (* returns (result, *size, *value) *)
  switch_get_reg : option (priv -> (Z * Z * Z) * priv);
  switch_set_reg : option (priv -> Z -> Z -> Z -> Z -> Z * priv);
  ds_get_sset_count : option (Z -> Z -> Z);
  ds_get_strings : option (Z -> Z -> list Z -> list Z)
}.

Inductive dsa_port_type : Type :=
  | DSA_PORT_TYPE_UNUSED | DSA_PORT_TYPE_CPU
  | DSA_PORT_TYPE_DSA | DSA_PORT_TYPE_USER.

Definition is_unused (t : dsa_port_type) : bool :=
  match t with DSA_PORT_TYPE_UNUSED => true | _ => false end.

Record dsa_switch : Type := {
  ds_index : Z;
  ds_ops : dsa_switch_ops
}.

Record dsa_port : Type := {
  dp_ds : dsa_switch;
  dp_index : Z;
  dp_type : dsa_port_type
}.

(** What a sysfs handler asks of the switch driver and of the clock
    arbiter, in program order. *)
Inductive call : Type :=
  | Call_change_tag_protocol (port proto : Z)
  | Call_port_change_pvlan (index value : Z)
  | Call_switch_setup_get_reg (page reg size : Z)
  | Call_switch_get_reg
  | Call_switch_set_reg (page reg size value : Z)
  | Call_spi_mutex_lock
  | Call_spi_mutex_force_unlock.

(** The state the handlers of one master device work on. *)
Record state : Type := {
  tag_ops : nat;                 (* cpu_dp->tag_ops *)
  refcount : gmap nat Z;         (* module reference count per tag driver *)
  clock_short : bool;            (* datum_spi2_i2c3_clock_short *)
  ds_priv : priv;                (* private data of cpu_dp->ds *)
  calls : list call
}.

Definition set_tag_ops (t : nat) (s : state) : state :=
  {| tag_ops := t; refcount := refcount s; clock_short := clock_short s;
     ds_priv := ds_priv s; calls := calls s |}.

(** The reference count of tag driver [t] (0 when none was ever taken). *)
Definition refs (s : state) (t : nat) : Z := default 0 (refcount s !! t).

Definition add_ref (t : nat) (n : Z) (s : state) : state :=
  {| tag_ops := tag_ops s;
     refcount := <[t := refs s t + n]> (refcount s);
     clock_short := clock_short s; ds_priv := ds_priv s; calls := calls s |}.

Definition set_clock_short (b : bool) (s : state) : state :=
  {| tag_ops := tag_ops s; refcount := refcount s; clock_short := b;
     ds_priv := ds_priv s; calls := calls s |}.

Definition log (c : call) (s : state) : state :=
  {| tag_ops := tag_ops s; refcount := refcount s;
     clock_short := clock_short s; ds_priv := ds_priv s;
     calls := calls s ++ [c] |}.

(** The driver hook [c] was called and left the private data [p]. *)
Definition called (c : call) (p : priv) (s : state) : state :=
  {| tag_ops := tag_ops s; refcount := refcount s;
     clock_short := clock_short s; ds_priv := p; calls := calls s ++ [c] |}.

(** Modelled from the spec: dsa_find_tagger_by_name (net/dsa/dsa.c, not
    among the sources). "Look up new-protocol by name; fail with NotFound
    if unknown or its provider is unavailable"; the lookup speculatively
    takes a reference on the provider it returns. *)
Definition dsa_find_tagger_by_name (drivers : list dsa_tag_driver)
    (buf : string) (s : state) : (Z + nat) * state :=
  match lookup_by_name drivers (list_ascii_of_string buf) 0 with
  | Some (t, drv) =>
      if available drv then (inr t, add_ref t 1 s)
      else (inl (- ENOPROTOOPT), s)
  | None => (inl (- ENOPROTOOPT), s)
  end.

(** Modelled from the spec: dsa_tag_driver_put (net/dsa/dsa.c, not among
    the sources): "releasing decrements". *)
Definition dsa_tag_driver_put (t : nat) (s : state) : state := add_ref t (-1) s.

(** Modelled from the spec: dsa_tree_change_tag_proto (net/dsa/dsa2.c,
    not among the sources). [tree_notify t] is the outcome of the
    tree-wide reconfiguration to tag driver [t] (0, or a negative errno
    injected by a port of the tree). "On success: set active-protocol =
    new-protocol. On failure: leave active-protocol unchanged, propagate
    the error." The references are left to the caller. *)
Definition dsa_tree_change_tag_proto (tree_notify : nat -> Z)
    (new_tag_ops old_tag_ops : nat) (s : state) : Z * state :=
  let err := tree_notify new_tag_ops in
  if err =? 0 then (0, set_tag_ops new_tag_ops s) else (err, s).

(** *** ethtool strings *)

Record ethtool_ops : Type := {
  get_sset_count : option (Z -> Z);
  get_strings : option (Z -> list Z -> list Z);
  has_get_ethtool_phy_stats : bool
}.

(** dev->phydev with phy_ethtool_get_sset_count and
    phy_ethtool_get_strings applied to it. *)
Record phy_device : Type := {
  phy_ethtool_get_sset_count : Z;
  phy_ethtool_get_strings : list Z -> list Z
}.

(** snprintf(pfx, sizeof(pfx), "p%.2d", port); pfx[3] = '_' *)
Definition port_pfx (port : Z) : list Z :=
  <[3%nat := byte_of "_"]> (snprintf 4 ("p"%char :: fmt_d_prec 2 port)).

(** The [i]-th fixed-width string of a buffer. *)
Definition gstring (buf : list Z) (i : nat) : list Z :=
  take ETH_GSTRING_LEN (drop (i * ETH_GSTRING_LEN) buf).

(** The first [n] strings of [ndata], each rebuilt as the tag followed by
    the original cut to the room that is left. *)
Definition prefixed_strings (pfx ndata : list Z) (n : nat) : list Z :=
  concat ((fun i => pfx ++ take (ETH_GSTRING_LEN - length pfx) (gstring ndata i))
            <$> seq 0 n).

(** One pass of the mangling loop, on the memory at [ndata]. *)
Definition prefix_string (pfx : list Z) (ndata : list Z) (i : nat) : list Z :=
  let len := ETH_GSTRING_LEN in
  let ndata := memmove ndata (i * len + length pfx) (i * len) (len - length pfx) in
  memcpy ndata (i * len) pfx.

(** The master's strings, written at [data]; the result is the buffer
    and mcount. *)
Definition master_strings (ops : ethtool_ops) (phydev : option phy_device)
    (stringset : Z) (data : list Z) : list Z * Z :=
  let from_ops :=
    match get_sset_count ops, get_strings ops with
    | Some cnt, Some strs =>
        let mcount := cnt stringset in
        (strs stringset data, if mcount <? 0 then 0 else mcount)
    | _, _ => (data, 0)
    end in
  match phydev with
  | Some phy =>
      if (stringset =? ETH_SS_PHY_STATS) && negb (has_get_ethtool_phy_stats ops)
      then
        let mcount := phy_ethtool_get_sset_count phy in
        if mcount <? 0 then (data, 0)
        else (phy_ethtool_get_strings phy data, mcount)
      else from_ops
  | None => from_ops
  end.

(** dsa_master_get_strings; [None] is a call through a NULL hook
    (ds->ops->get_sset_count is called unguarded). *)
Definition dsa_master_get_strings (ops : ethtool_ops)
    (phydev : option phy_device) (ds : dsa_switch) (port : Z)
    (stringset : Z) (data : list Z) : option (list Z) :=
  let len := ETH_GSTRING_LEN in
  let pfx := port_pfx port in
  let '(data, mcount) := master_strings ops phydev stringset data in
  match ds_get_strings (ds_ops ds) with
  | Some strs =>
      let off := (Z.to_nat mcount * len)%nat in
      let data := at_offset off (strs port stringset) data in
      match ds_get_sset_count (ds_ops ds) with
      | Some cnt =>
          let count := cnt port stringset in
          if count <? 0 then Some data
          else
            Some (at_offset off
                    (fun ndata =>
                       foldl (prefix_string pfx) ndata (seq 0 (Z.to_nat count)))
                    data)
      | None => None
      end
  | None => Some data
  end.

(** *** ioctl *)

(** list_for_each_entry(dp, &dst->ports, list)
      if (dsa_port_supports_hwtstamp(dp, ifr)) return -EBUSY;
    [None] when the loop runs to its end. The helper of
    include/net/dsa.h is not among the sources and is a parameter. *)
Fixpoint deny_hwtstamp {ifreq : Type}
    (dsa_port_supports_hwtstamp : dsa_port -> ifreq -> bool)
    (ports : list dsa_port) (ifr : ifreq) : option Z :=
  match ports with
  | [] => None
  | dp :: rest =>
      if dsa_port_supports_hwtstamp dp ifr then Some (- EBUSY)
      else deny_hwtstamp dsa_port_supports_hwtstamp rest ifr
  end.

(** [ports] is dst->ports, [ndo_eth_ioctl] the hook of the master's own
    netdev_ops. *)
Definition dsa_master_ioctl {ifreq : Type}
    (dsa_port_supports_hwtstamp : dsa_port -> ifreq -> bool)
    (ports : list dsa_port) (ndo_eth_ioctl : option (ifreq -> Z -> Z))
    (ifr : ifreq) (cmd : Z) : Z :=
  let err := - EOPNOTSUPP in
  let forward :=
    match ndo_eth_ioctl with
    | Some ioctl => ioctl ifr cmd
    | None => err
    end in
  if (cmd =? SIOCGHWTSTAMP) || (cmd =? SIOCSHWTSTAMP) then
    match deny_hwtstamp dsa_port_supports_hwtstamp ports ifr with
    | Some busy => busy
    | None => forward
    end
  else forward.

(** *** sysfs: tagging *)

Definition tagging_cpu_store (drivers : list dsa_tag_driver)
    (tree_notify : nat -> Z) (buf : string) (count : Z) (s : state)
  : Z * state :=
  let old_tag_ops := tag_ops s in
  match dsa_find_tagger_by_name drivers buf s with
  | (inl err, s) => (err, s)
  | (inr new_tag_ops, s) =>
      if (new_tag_ops =? old_tag_ops)%nat then
        (count, dsa_tag_driver_put old_tag_ops s)
      else
        let '(err, s) :=
          dsa_tree_change_tag_proto tree_notify new_tag_ops old_tag_ops s in
        if negb (err =? 0) then (err, dsa_tag_driver_put new_tag_ops s)
        else (count, dsa_tag_driver_put old_tag_ops s)
  end.

(** new_tag_ops->proto *)
Definition proto_of (drivers : list dsa_tag_driver) (t : nat) : Z :=
  match drivers !! t with
  | Some drv => proto (ops drv)
  | None => 0
  end.

Definition tagging_imp_store (drivers : list dsa_tag_driver)
    (ds : dsa_switch) (buf : string) (count : Z) (s : state) : Z * state :=
  match dsa_find_tagger_by_name drivers buf s with
  | (inl err, s) => (err, s)
  | (inr new_tag_ops, s) =>
      match change_tag_protocol (ds_ops ds) with
      | None => (- EOPNOTSUPP, s)
      | Some change =>
          let pr := proto_of drivers new_tag_ops in
          let '(_, p) := change (ds_priv s) 8 pr in
          (count, called (Call_change_tag_protocol 8 pr) p s)
      end
  end.

(** *** sysfs: pvlan *)

Definition pvlan_fmt : list fmt_item := [Field Conv_d; Lit ":"; Field Conv_hx].

(** The search loop of pvlan_store over dst->ports; [ds] is cpu_dp->ds,
    whose private data every hook is called with. [None] is a call
    through a NULL hook (the guard tests port_get_pvlan, the call is
    port_change_pvlan). *)
Fixpoint pvlan_store_ports (ports : list dsa_port) (index value count : Z)
    (s : state) : option (Z * state) :=
  match ports with
  | [] => Some (- EINVAL, s)
  | dp :: rest =>
      if (dp_index dp =? index) && negb (is_unused (dp_type dp)) then
        match port_get_pvlan (ds_ops (dp_ds dp)) with
        | None => Some (- EOPNOTSUPP, s)
        | Some _ =>
            match port_change_pvlan (ds_ops (dp_ds dp)) with
            | None => None
            | Some change =>
                let '(_, p) := change (ds_priv s) index value in
                Some (count, called (Call_port_change_pvlan index value) p s)
            end
        end
      else pvlan_store_ports rest index value count s
  end.

Definition pvlan_store (ports : list dsa_port) (buf : string) (count : Z)
    (s : state) : option (Z * state) :=
  match sscanf buf pvlan_fmt with
  | [index; value] => pvlan_store_ports ports index value count s
  | _ => Some (- EINVAL, s)
  end.

(** *** sysfs: rdreg, wrreg *)

(** rdreg_show: the return value and the text put in [buf]. *)
Definition rdreg_show (ds : dsa_switch) (s : state)
  : option ((Z * list ascii) * state) :=
  match switch_get_reg (ds_ops ds) with
  | None => None
  | Some get =>
      let '((ret, size, value), p) := get (ds_priv s) in
      let s := called Call_switch_get_reg p s in
      let size := u8 size in
      let value := u64 value in
      let out (text : list ascii) := Some ((Z.of_nat (length text), text), s) in
      if negb (ret =? 0) then Some ((- EIO, []), s)
      else
        match size with
        | 1 => out (fmt_hhx (u8 value) ++ [nl])
        | 2 => out (fmt_hx (u16 value) ++ [nl])
        | 4 => out (fmt_x (u32 value) ++ [nl])
        | 6 => out (fmt_llx value ++ [nl])
        | 8 => out (fmt_llx value ++ [nl])
        | _ => Some ((- EIO, []), s)
        end
  end.

Definition rdreg_fmt : list fmt_item :=
  [Field Conv_hhx; Lit ":"; Field Conv_hhx; Lit ":"; Field Conv_hhx].

Definition rdreg_store (ds : dsa_switch) (buf : string) (count : Z)
    (s : state) : option (Z * state) :=
  match sscanf buf rdreg_fmt with
  | [page; reg; size] =>
      match switch_setup_get_reg (ds_ops ds) with
      | None => None
      | Some setup =>
          let '(ret, p) := setup (ds_priv s) page reg size in
          let s := called (Call_switch_setup_get_reg page reg size) p s in
          if negb (ret =? 0) then Some (- EIO, s) else Some (count, s)
      end
  | _ => Some (- EINVAL, s)
  end.

Definition wrreg_show (s : state) : Z * state := (- EPERM, s).

Definition wrreg_fmt : list fmt_item :=
  [Field Conv_hhx; Lit ":"; Field Conv_hhx; Lit ":"; Field Conv_hhx;
   Lit ":"; Field Conv_llx].

Definition wrreg_store (ds : dsa_switch) (buf : string) (count : Z)
    (s : state) : option (Z * state) :=
  match sscanf buf wrreg_fmt with
  | [page; reg; size; value] =>
      match switch_set_reg (ds_ops ds) with
      | None => None
      | Some set =>
          let '(ret, p) := set (ds_priv s) page reg size value in
          let s := called (Call_switch_set_reg page reg size value) p s in
          if negb (ret =? 0) then Some (- EIO, s) else Some (count, s)
      end
  | _ => Some (- EINVAL, s)
  end.

(** *** sysfs: spi_mutex *)

Definition spi_mutex_show (s : state) : list ascii :=
  if clock_short s then ["1"%char; nl] else ["0"%char; nl].

Definition spi_mutex_store (buf : string) (count : Z) (s : state) : Z * state :=
  if negb (count =? 2) then (- EINVAL, s)
  else
    match sscanf buf [Field Conv_d] with
    | [mutex_enable] =>
        if negb (mutex_enable =? 0) && negb (mutex_enable =? 1)
        then (- EINVAL, s)
        else
          let s := log Call_spi_mutex_lock s in
          let s := set_clock_short (negb (mutex_enable =? 0)) s in
          (count, log Call_spi_mutex_force_unlock s)
    | _ => (- EINVAL, s)
    end.

(** *** Vocabulary of the properties *)

(** The tree holds exactly one reference, on the active tag driver;
    [others t] counts the references that anybody else holds on [t]. *)
Definition one_active_reference (others : nat -> Z) (s : state) : Prop :=
  forall p, refs s p = others p + (if decide (p = tag_ops s) then 1 else 0).

Definition is_hwtstamp_cmd (cmd : Z) : Prop :=
  cmd = SIOCGHWTSTAMP \/ cmd = SIOCSHWTSTAMP.

(** A port of the tree that pvlan_store accepts for [index]. *)
Definition used_port (index : Z) (dp : dsa_port) : Prop :=
  dp_index dp = index /\ is_unused (dp_type dp) = false.

(** The number of bytes that rdreg_show prints for a width. *)
Definition printed_bytes (size : Z) : Z := if size =? 6 then 8 else size.

End Driver.
Arguments dsa_switch_ops : clear implicits.
Arguments dsa_switch : clear implicits.
Arguments dsa_port : clear implicits.
Arguments state : clear implicits.

End Master.

(* ===================================================================== *)
(** ** Fixtures: concrete devices, drivers and trees                     *)
(* ===================================================================== *)

Module Fixtures.
Import Mcp9902.

(** A register map that answers the same bytes at every time: local
    temperature 89, its fraction byte 0x20, everything else 0. *)
Definition chip_89_20 : nat -> Z -> Z :=
  fun _ reg =>
    if reg =? MCP9902_REG_R_LOCAL_TEMP then 89
    else if reg =? MCP9902_REG_R_LOCAL_TEMP_FRACTION then 0x20
    else 0.

(** A register map with different bytes for the two sensors: local 89
    and 0x20, remote 70 and 0xE0; every other register answers 0x55. *)
Definition chip_two_sensors : nat -> Z -> Z :=
  fun _ reg =>
    if reg =? MCP9902_REG_R_LOCAL_TEMP then 89
    else if reg =? MCP9902_REG_R_LOCAL_TEMP_FRACTION then 0x20
    else if reg =? MCP9902_REG_R_REMOTE_TEMP then 70
    else if reg =? MCP9902_REG_R_REMOTE_TEMP_FRACTION then 0xE0
    else 0x55.

(** A stand-in for kstrtol on the one input "25000". *)
Definition kstrtol_25000 : string -> Z -> Z * Z :=
  fun buf _ => if String.eqb buf "25000" then (0, 25000) else (- EINVAL, 0).

(** A cache that was refreshed at jiffies 1000. *)
Definition cached_data : mcp9902_data :=
  {| valid := true; last_updated := 1000;
     temp := replicate t_num_regs 0; alarms := 0 |}.

Import Master.

(** Modelled from the spec: the switch driver's side of the debug
    register port and of the per-port VLAN register (the switch driver,
    drivers/net/dsa/b53, is not among the sources). "prepare validates
    width in {1,2,4,6,8}, stores the address triple as pending context";
    "get register returns (width, value)"; "write validates the same
    width set". *)
Record b53_priv : Type := {
  pending : option (Z * Z * Z);
  regs : Z -> Z -> Z;            (* page -> register -> value *)
  pvlan : Z -> Z                 (* port -> membership *)
}.

Definition valid_width (w : Z) : bool :=
  (w =? 1) || (w =? 2) || (w =? 4) || (w =? 6) || (w =? 8).

Definition b53_setup_get_reg (p : b53_priv) (page reg size : Z) : Z * b53_priv :=
  if valid_width size
  then (0, {| pending := Some (page, reg, size); regs := regs p; pvlan := pvlan p |})
  else (- EINVAL, p).

Definition b53_get_reg (p : b53_priv) : (Z * Z * Z) * b53_priv :=
  match pending p with
  | Some (page, reg, size) => ((0, size, regs p page reg), p)
  | None => ((- EINVAL, 0, 0), p)
  end.

Definition b53_set_reg (p : b53_priv) (page reg size value : Z) : Z * b53_priv :=
  if valid_width size
  then (0, {| pending := pending p;
              regs := fun pg r => if (pg =? page) && (r =? reg) then value
                                  else regs p pg r;
              pvlan := pvlan p |})
  else (- EINVAL, p).

Definition b53_port_get_pvlan (p : b53_priv) (port : Z) : Z * b53_priv :=
  (pvlan p port, p).

Definition b53_port_change_pvlan (p : b53_priv) (port value : Z) : Z * b53_priv :=
  (0, {| pending := pending p; regs := regs p;
         pvlan := fun q => if q =? port then value else pvlan p q |}).

(** A change_tag_protocol hook that always fails. *)
Definition b53_change_tag_protocol (p : b53_priv) (port proto : Z) : Z * b53_priv :=
  (- EINVAL, p).

Definition b53_ops : dsa_switch_ops b53_priv :=
  {| change_tag_protocol := Some b53_change_tag_protocol;
     port_get_pvlan := Some b53_port_get_pvlan;
     port_change_pvlan := Some b53_port_change_pvlan;
     switch_setup_get_reg := Some b53_setup_get_reg;
     switch_get_reg := Some b53_get_reg;
     switch_set_reg := Some b53_set_reg;
     ds_get_sset_count := None;
     ds_get_strings := None |}.

(** A driver that accepts every width. *)
Definition lax_ops : dsa_switch_ops b53_priv :=
  {| change_tag_protocol := None;
     port_get_pvlan := None;
     port_change_pvlan := None;
     switch_setup_get_reg :=
       Some (fun p page reg size =>
               (0, {| pending := Some (page, reg, size); regs := regs p;
                      pvlan := pvlan p |}));
     switch_get_reg := Some b53_get_reg;
     switch_set_reg := None;
     ds_get_sset_count := None;
     ds_get_strings := None |}.

(** A driver with no hooks at all. *)
Definition bare_ops : dsa_switch_ops b53_priv :=
  {| change_tag_protocol := None; port_get_pvlan := None;
     port_change_pvlan := None; switch_setup_get_reg := None;
     switch_get_reg := None; switch_set_reg := None;
     ds_get_sset_count := None; ds_get_strings := None |}.

Definition sw0 : dsa_switch b53_priv := {| ds_index := 0; ds_ops := b53_ops |}.
Definition sw_lax : dsa_switch b53_priv := {| ds_index := 0; ds_ops := lax_ops |}.
Definition sw_bare : dsa_switch b53_priv := {| ds_index := 0; ds_ops := bare_ops |}.

Definition port_of (ds : dsa_switch b53_priv) (t : dsa_port_type) (i : Z)
  : dsa_port b53_priv :=
  {| dp_ds := ds; dp_index := i; dp_type := t |}.

(** User ports 0-3, an unused port 4, the CPU port 8. *)
Definition tree_ports (ds : dsa_switch b53_priv) : list (dsa_port b53_priv) :=
  (port_of ds DSA_PORT_TYPE_USER <$> [0; 1; 2; 3])
    ++ [port_of ds DSA_PORT_TYPE_UNUSED 4; port_of ds DSA_PORT_TYPE_CPU 8].

Definition tag_drivers : list dsa_tag_driver :=
  [ {| ops := {| name := "brcm"; proto := 1; promisc_on_master := false |};
       available := true |};
    {| ops := {| name := "brcm-prepend"; proto := 2; promisc_on_master := false |};
       available := true |};
    {| ops := {| name := "none"; proto := 0; promisc_on_master := false |};
       available := false |} ].

(** Register 0x10 of page 0 holds 5. *)
Definition init_priv : b53_priv :=
  {| pending := None;
     regs := fun page reg => if (page =? 0) && (reg =? 0x10) then 5 else 0;
     pvlan := fun _ => 0x1ff |}.

(** Port p is in the port VLAN 0x100 + p. *)
Definition numbered_priv : b53_priv :=
  {| pending := None; regs := fun _ _ => 0; pvlan := fun port => 0x100 + port |}.

(** The tree runs "brcm" and holds the one reference on it. *)
Definition init_state : state b53_priv :=
  {| tag_ops := 0%nat; refcount := {[ 0%nat := 1 ]}; clock_short := false;
     ds_priv := init_priv; calls := [] |}.

(** The state after the write "0:10:2" to rdreg. *)
Definition prepared_width_2 : state b53_priv :=
  match rdreg_store sw0 "0:10:2" 7 init_state with
  | Some (_, s) => s
  | None => init_state
  end.

(** A name as a fixed-width, zero-padded ethtool string. *)
Definition gstring_of (s : string) : list Z :=
  take ETH_GSTRING_LEN
    ((byte_of <$> list_ascii_of_string s) ++ replicate ETH_GSTRING_LEN 0).

(** A get_strings hook that writes the given names at its pointer. *)
Definition put_strings (names : list string) (buf : list Z) : list Z :=
  list_inserts 0 (concat (gstring_of <$> names)) buf.

(** A master with one statistic. *)
Definition eth_ops : ethtool_ops :=
  {| get_sset_count := Some (fun _ => 1);
     get_strings := Some (fun _ => put_strings ["rx_packets"%string]);
     has_get_ethtool_phy_stats := false |}.

(** A switch with two statistics, the second with a name of 31
    characters. *)
Definition strings_ops : dsa_switch_ops b53_priv :=
  {| change_tag_protocol := None; port_get_pvlan := None;
     port_change_pvlan := None; switch_setup_get_reg := None;
     switch_get_reg := None; switch_set_reg := None;
     ds_get_sset_count := Some (fun _ _ => 2);
     ds_get_strings :=
       Some (fun _ _ => put_strings ["rx_bytes"%string; "in_broadcast_packets_dropped_hw"%string]) |}.

Definition sw_strings : dsa_switch b53_priv :=
  {| ds_index := 0; ds_ops := strings_ops |}.

End Fixtures.

(* ===================================================================== *)
(** ** drivers/hwmon/mcp9902.c: detection, setup, bus discipline         *)
(* ===================================================================== *)

Module Mcp9902_ext.
Import Mcp9902.

Definition MCP9902_REG_R_CHIP_ID : Z := 0xFD.
Definition MCP9902_REG_R_MAN_ID : Z := 0xFE.
Definition MCP9902_REG_W_CONFIG : Z := 0x09.
Definition MCP9902_REG_W_CONVRATE : Z := 0x0A.

Definition ENOMEM : Z := 12.
Definition ENODEV : Z := 19.

(** mcp9902_detect. [functionality] is the answer of
    i2c_check_functionality(adapter, I2C_FUNC_SMBUS_BYTE_DATA); the
    result is the return value, what was copied to info->type, and the
    trace. Both identification bytes are stored in a u8. *)
Definition mcp9902_detect (functionality : bool) (chip : nat -> Z -> Z)
    (suspended : bool) (tr : list event) : Z * option string * list event :=
  if negb functionality then (- ENODEV, None, tr)
  else
    let tr := spi_lock tr in
    let '(v, tr) := i2c_read chip tr MCP9902_REG_R_MAN_ID in
    let man_id := u8 v in
    let '(v, tr) := i2c_read chip tr MCP9902_REG_R_CHIP_ID in
    let chip_id := u8 v in
    let tr := spi_unlock suspended tr in
    if negb (man_id =? 0x5D) || negb (chip_id =? 0x04)
    then (- ENODEV, None, tr)
    else (0, Some "mcp9902"%string, tr).

(** mcp9902_init_client: 2 Hz conversion rate, run, extended range. *)
Definition mcp9902_init_client (suspended : bool) (tr : list event) : list event :=
  let tr := spi_lock tr in
  let tr := tr ++ [I2c_write MCP9902_REG_W_CONVRATE 5] in
  let tr := tr ++ [I2c_write MCP9902_REG_W_CONFIG 0x9F] in
  spi_unlock suspended tr.

(** mcp9902_probe. [alloc_ok] says whether devm_kzalloc succeeds,
    [register_ret] is PTR_ERR_OR_ZERO of the hwmon registration. The
    client data come back with the return value. *)
Definition mcp9902_probe (alloc_ok : bool) (register_ret : Z)
    (suspended : bool) (tr : list event)
  : Z * option mcp9902_data * list event :=
  if negb alloc_ok then (- ENOMEM, None, tr)
  else
    let data := fresh_data in
    let tr := mcp9902_init_client suspended tr in
    (register_ret, Some data, tr).

(** *** Vocabulary of the properties *)

(** The events of one pass of the refresh loop. *)
Definition burst_trace (suspended : bool) : list event :=
  [Spi_mutex_lock]
    ++ ((fun i => I2c_read (regs_read i)) <$> all_regs)
    ++ [I2c_read MCP9902_REG_R_STATUS]
    ++ (if suspended then [] else [Usleep_range 100 200])
    ++ [Msleep 1; Spi_mutex_unlock].

Definition is_i2c_read (e : event) : bool :=
  match e with I2c_read _ => true | _ => false end.

Definition is_bus_access (e : event) : bool :=
  match e with I2c_read _ | I2c_write _ _ => true | _ => false end.

(** The clock arbiter as an automaton over a trace: [held] says whether
    the caller holds datum_b53_spi_mutex. A bus transaction without the
    mutex, a second lock, and an unlock without the mutex are refused
    ([None]); otherwise the result says whether the mutex is still
    held at the end. *)
Fixpoint arbiter_run (held : bool) (tr : list event) : option bool :=
  match tr with
  | [] => Some held
  | e :: tr' =>
      match e with
      | Spi_mutex_lock => if held then None else arbiter_run true tr'
      | Spi_mutex_unlock => if held then arbiter_run false tr' else None
      | I2c_read _ | I2c_write _ _ =>
          if held then arbiter_run held tr' else None
      | _ => arbiter_run held tr'
      end
  end.

(** Every release of the mutex comes right after a sleep of at least
    one millisecond; [slept] says whether the previous event was one. *)
Fixpoint release_settled (slept : bool) (tr : list event) : bool :=
  match tr with
  | [] => true
  | e :: tr' =>
      match e with
      | Spi_mutex_unlock => slept && release_settled false tr'
      | Msleep ms => release_settled (1 <=? ms) tr'
      | _ => release_settled false tr'
      end
  end.

(** The four entry points that open a bus session. *)
Inductive entry : Type :=
  | Entry_update (jiffies : Z) (d : mcp9902_data)
  | Entry_store (kstrtol : string -> Z -> Z * Z) (i : temp_index)
      (buf : string) (count : Z) (d : mcp9902_data)
  | Entry_detect (functionality : bool)
  | Entry_probe (alloc_ok : bool) (register_ret : Z).

(** The trace that an entry point leaves, started on an empty trace. *)
Definition entry_trace (chip : nat -> Z -> Z) (suspended : bool) (e : entry)
  : list event :=
  match e with
  | Entry_update jiffies d =>
      (mcp9902_update_device jiffies chip suspended (d, [])).2
  | Entry_store kstrtol i buf count d =>
      (temp_store kstrtol suspended i buf count (d, [])).2.2
  | Entry_detect functionality =>
      (mcp9902_detect functionality chip suspended []).2
  | Entry_probe alloc_ok register_ret =>
      (mcp9902_probe alloc_ok register_ret suspended []).2
  end.

#[global] Instance temp_index_eq_dec : EqDecision temp_index.
Proof. solve_decision. Defined.

(** Whether mcp9902_update_device goes to the bus. *)
Definition refreshes (jiffies : Z) (d : mcp9902_data) : bool :=
  time_after jiffies (u64 (last_updated d + 1)) || negb (valid d).

End Mcp9902_ext.

(* ===================================================================== *)
(** ** net/dsa/master.c: the remaining handlers, setup and teardown      *)
(* ===================================================================== *)

Module Master_ext.
Import Master.

Definition ETH_DATA_LEN : Z := 1500.
Definition ENOMEM : Z := 12.

(** "%03hx": an unsigned short in hexadecimal, zero-padded to width 3. *)
Definition fmt_03hx (v : Z) : list ascii := zero_pad 3 (digits 16 (u16 v)).

(** *** The master's string count (dsa_master_get_sset_count) *)

Section Driver.
Context {priv : Type}.

Definition dsa_master_get_sset_count (ops : ethtool_ops)
    (phydev : option phy_device) (ds : dsa_switch priv) (index : Z)
    (sset : Z) : Z :=
  let from_ops :=
    match get_sset_count ops with
    | Some cnt => cnt sset
    | None => 0
    end in
  let count :=
    match phydev with
    | Some phy =>
        if (sset =? ETH_SS_PHY_STATS) && negb (has_get_ethtool_phy_stats ops)
        then phy_ethtool_get_sset_count phy
        else from_ops
    | None => from_ops
    end in
  let count := if count <? 0 then 0 else count in
  match ds_get_sset_count (ds_ops ds) with
  | Some cnt => int (count + cnt index sset)
  | None => count
  end.

(** *** tagging_cpu_show *)

(** Modelled from the spec: dsa_tag_protocol_to_str (net/dsa/dsa.c, not
    among the sources) gives the "protocol name string" of a tag
    driver. *)
Definition dsa_tag_protocol_to_str (drivers : list dsa_tag_driver) (t : nat)
  : string :=
  match drivers !! t with
  | Some drv => name (ops drv)
  | None => ""%string
  end.

Definition tagging_cpu_show (drivers : list dsa_tag_driver) (s : state priv)
  : list ascii :=
  list_ascii_of_string (dsa_tag_protocol_to_str drivers (tag_ops s)) ++ [nl].

(** *** pvlan_show *)

(** enum dsa_port_type of include/net/dsa.h. *)
Definition type_code (t : dsa_port_type) : Z :=
  match t with
  | DSA_PORT_TYPE_UNUSED => 0 | DSA_PORT_TYPE_CPU => 1
  | DSA_PORT_TYPE_DSA => 2 | DSA_PORT_TYPE_USER => 3
  end.

Definition type_of_code (c : Z) : dsa_port_type :=
  if c =? 0 then DSA_PORT_TYPE_UNUSED
  else if c =? 1 then DSA_PORT_TYPE_CPU
  else if c =? 2 then DSA_PORT_TYPE_DSA
  else DSA_PORT_TYPE_USER.

(** dp->type |= DSA_PORT_TYPE_UNUSED *)
Definition or_unused (dp : dsa_port priv) : dsa_port priv :=
  {| dp_ds := dp_ds dp; dp_index := dp_index dp;
     dp_type := type_of_code
                  (Z.lor (type_code (dp_type dp))
                         (type_code DSA_PORT_TYPE_UNUSED)) |}.

(** One "%d:%03hx " item. dp->index is an unsigned int and "%d" prints
    it as an int. *)
Definition pvlan_item (index value : Z) : list ascii :=
  fmt_d (int index) ++ [":"%char] ++ fmt_03hx value ++ [" "%char].

(** The loop of pvlan_show over dst->ports. A hook is called with the
    switch of its own port (dp->ds): [privs] gives the private data of
    every switch of the tree by ds->index. The result is the return
    value, the text in [buf], the ports as the loop leaves them, and the
    private data; [None] is a call through a NULL hook (the guard tests
    port_change_pvlan, the call is port_get_pvlan). *)
Fixpoint pvlan_show_ports (ports : list (dsa_port priv)) (privs : Z -> priv)
    (text : list ascii)
  : option (Z * list ascii * list (dsa_port priv) * (Z -> priv)) :=
  match ports with
  | [] =>
      let text := text ++ [nl] in
      Some (Z.of_nat (length text), text, [], privs)
  | dp :: rest =>
      let dp := or_unused dp in
      if negb (type_code (dp_type dp) =? 0) then
        match port_change_pvlan (ds_ops (dp_ds dp)) with
        | None => Some (- EOPNOTSUPP, text, dp :: rest, privs)
        | Some _ =>
            match port_get_pvlan (ds_ops (dp_ds dp)) with
            | None => None
            | Some get =>
                let sw := ds_index (dp_ds dp) in
                let '(value, p) := get (privs sw) (dp_index dp) in
                let privs := fun k => if k =? sw then p else privs k in
                let text := text ++ pvlan_item (dp_index dp) value in
                match pvlan_show_ports rest privs text with
                | Some (ret, text, rest, privs) =>
                    Some (ret, text, dp :: rest, privs)
                | None => None
                end
            end
        end
      else
        match pvlan_show_ports rest privs text with
        | Some (ret, text, rest, privs) => Some (ret, text, dp :: rest, privs)
        | None => None
        end
  end.

Definition pvlan_show (ports : list (dsa_port priv)) (privs : Z -> priv)
  : option (Z * list ascii * list (dsa_port priv) * (Z -> priv)) :=
  pvlan_show_ports ports privs [].

End Driver.

(** *** Setup and teardown of the master *)

(** The kernel services that setup and teardown call, in order. *)
Inductive kcall : Type :=
  | K_device_link_add
  | K_dev_set_mtu (mtu : Z)
  | K_dev_set_promiscuity (inc : Z)
  | K_devm_kzalloc
  | K_sysfs_create_group
  | K_sysfs_remove_group.

(** What dev->ethtool_ops points to: the table of the master's own
    driver, or the table that dsa_master_ethtool_setup allocates: a copy
    of the original (zeroes when there was none) with the six
    dsa_master_* hooks in place. *)
Inductive ethtool_table : Type :=
  | Table_driver (t : ethtool_ops)
  | Table_dsa (copied : option ethtool_ops).

Definition zero_ethtool_ops : ethtool_ops :=
  {| get_sset_count := None; get_strings := None;
     has_get_ethtool_phy_stats := false |}.

(** The hooks of a table that the facade does not replace. *)
Definition table_content (t : ethtool_table) : ethtool_ops :=
  match t with
  | Table_driver t => t
  | Table_dsa (Some t) => t
  | Table_dsa None => zero_ethtool_ops
  end.

Record master_dev : Type := {
  ethtool_ops_ptr : option ethtool_table;    (* dev->ethtool_ops *)
  dsa_ptr : bool;                            (* dev->dsa_ptr, set or NULL *)
  orig_ethtool_ops : option ethtool_table;   (* cpu_dp->orig_ethtool_ops *)
  netdev_ops : bool;                         (* cpu_dp->netdev_ops, set or NULL *)
  klog : list kcall
}.

Definition kcalled (c : kcall) (m : master_dev) : master_dev :=
  {| ethtool_ops_ptr := ethtool_ops_ptr m; dsa_ptr := dsa_ptr m;
     orig_ethtool_ops := orig_ethtool_ops m; netdev_ops := netdev_ops m;
     klog := klog m ++ [c] |}.

Definition set_dsa_ptr (b : bool) (m : master_dev) : master_dev :=
  {| ethtool_ops_ptr := ethtool_ops_ptr m; dsa_ptr := b;
     orig_ethtool_ops := orig_ethtool_ops m; netdev_ops := netdev_ops m;
     klog := klog m |}.

(** [alloc_ok] says whether devm_kzalloc succeeds. *)
Definition dsa_master_ethtool_setup (alloc_ok : bool) (m : master_dev)
  : Z * master_dev :=
  let m := kcalled K_devm_kzalloc m in
  if negb alloc_ok then (- ENOMEM, m)
  else
    let orig := ethtool_ops_ptr m in
    (0, {| ethtool_ops_ptr := Some (Table_dsa (table_content <$> orig));
           dsa_ptr := dsa_ptr m; orig_ethtool_ops := orig;
           netdev_ops := netdev_ops m; klog := klog m |}).

Definition dsa_master_ethtool_teardown (m : master_dev) : master_dev :=
  {| ethtool_ops_ptr := orig_ethtool_ops m; dsa_ptr := dsa_ptr m;
     orig_ethtool_ops := None; netdev_ops := netdev_ops m; klog := klog m |}.

Definition dsa_netdev_ops_set (ops : bool) (m : master_dev) : master_dev :=
  {| ethtool_ops_ptr := ethtool_ops_ptr m; dsa_ptr := dsa_ptr m;
     orig_ethtool_ops := orig_ethtool_ops m; netdev_ops := ops;
     klog := klog m |}.

(** [promisc] is dev->dsa_ptr->tag_ops->promisc_on_master. *)
Definition dsa_master_set_promiscuity (promisc : bool) (inc : Z)
    (m : master_dev) : master_dev :=
  if negb promisc then m else kcalled (K_dev_set_promiscuity inc) m.

Definition dsa_master_reset_mtu (m : master_dev) : master_dev :=
  kcalled (K_dev_set_mtu ETH_DATA_LEN) m.

(** dsa_master_setup. [overhead] is dsa_tag_protocol_overhead(tag_ops);
    the results of device_link_add and of dev_set_mtu only lead to a
    message; [sysfs_ret] is the result of sysfs_create_group. *)
Definition dsa_master_setup (overhead : Z) (promisc : bool) (alloc_ok : bool)
    (sysfs_ret : Z) (m : master_dev) : Z * master_dev :=
  let mtu := int (ETH_DATA_LEN + overhead) in
  let m := kcalled K_device_link_add m in
  let m := kcalled (K_dev_set_mtu mtu) m in
  let m := set_dsa_ptr true m in
  let m := dsa_master_set_promiscuity promisc 1 m in
  let '(ret, m) := dsa_master_ethtool_setup alloc_ok m in
  if negb (ret =? 0) then
    (ret, dsa_master_set_promiscuity promisc (-1) m)
  else
    let m := dsa_netdev_ops_set true m in
    let m := kcalled K_sysfs_create_group m in
    let ret := sysfs_ret in
    if negb (ret =? 0) then
      let m := dsa_netdev_ops_set false m in
      let m := dsa_master_ethtool_teardown m in
      (ret, dsa_master_set_promiscuity promisc (-1) m)
    else (ret, m).

(** dsa_master_teardown; [None] when dev->dsa_ptr is NULL (it is
    dereferenced). *)
Definition dsa_master_teardown (promisc : bool) (m : master_dev)
  : option master_dev :=
  if negb (dsa_ptr m) then None
  else
    let m := kcalled K_sysfs_remove_group m in
    let m := dsa_netdev_ops_set false m in
    let m := dsa_master_ethtool_teardown m in
    let m := dsa_master_reset_mtu m in
    let m := dsa_master_set_promiscuity promisc (-1) m in
    Some (set_dsa_ptr false m).

(** *** Vocabulary of the properties *)

(** The net change of the promiscuity count that a log asks for. *)
Fixpoint promiscuity_delta (log : list kcall) : Z :=
  match log with
  | [] => 0
  | K_dev_set_promiscuity inc :: log' => inc + promiscuity_delta log'
  | _ :: log' => promiscuity_delta log'
  end.

(** A port that pvlan_show prints. *)
Definition shown_port {priv : Type} (dp : dsa_port priv) : bool :=
  negb (is_unused (dp_type dp)).

(** Item by item, the text for a list of ports and values. *)
Fixpoint pvlan_items (indices values : list Z) : list ascii :=
  match indices, values with
  | i :: indices, v :: values => pvlan_item i v ++ pvlan_items indices values
  | _, _ => []
  end.

(** What port_get_pvlan answers for one port, asked on the private
    data of the port's own switch. *)
Definition pvlan_answer {priv : Type} (privs : Z -> priv) (dp : dsa_port priv)
  : Z :=
  match port_get_pvlan (ds_ops (dp_ds dp)) with
  | Some get => (get (privs (ds_index (dp_ds dp))) (dp_index dp)).1
  | None => 0
  end.

(** The answers of port_get_pvlan for the ports that are shown, asked in
    the order of the list, each call on the private data that the calls
    before it left; and the private data after the last call. *)
Fixpoint pvlan_answers {priv : Type} (ports : list (dsa_port priv))
    (privs : Z -> priv) : list Z * (Z -> priv) :=
  match ports with
  | [] => ([], privs)
  | dp :: rest =>
      match (if shown_port dp then port_get_pvlan (ds_ops (dp_ds dp))
             else None) with
      | Some get =>
          let sw := ds_index (dp_ds dp) in
          let '(value, p) := get (privs sw) (dp_index dp) in
          let '(values, privs') :=
            pvlan_answers rest (fun k => if k =? sw then p else privs k) in
          (value :: values, privs')
      | None => pvlan_answers rest privs
      end
  end.

(** A character that is a digit of [base], as the printf conversions
    write it. *)
Definition digit_of (base : Z) (ch : ascii) : Prop :=
  exists d, 0 <= d < base /\ ch = digit_char d.

(** A master before setup, with the table of its driver. *)
Definition plain_master (t : ethtool_ops) : master_dev :=
  {| ethtool_ops_ptr := Some (Table_driver t); dsa_ptr := false;
     orig_ethtool_ops := None; netdev_ops := false; klog := [] |}.

End Master_ext.

(* ===================================================================== *)
(** ** Facts about the C library model                                   *)
(* ===================================================================== *)

Section CLibFacts.

Lemma int_small x : - 2 ^ 31 <= x < 2 ^ 31 -> int x = x.
Proof.
  intros H. unfold int, wrap_s.
  rewrite Z.mod_small; lia.
Qed.

Lemma u8_range x : 0 <= u8 x < 256.
Proof. unfold u8, wrap_u. apply Z.mod_pos_bound. lia. Qed.

Lemma u8_small x : 0 <= x < 256 -> u8 x = x.
Proof. intros H. unfold u8, wrap_u. apply Z.mod_small. lia. Qed.

(** The top three bits of a byte. *)
Lemma top3_bits f : 0 <= f < 256 -> Z.shiftr (Z.land f 0xE0) 5 = Z.shiftr f 5.
Proof.
  intros H. rewrite Z.shiftr_land.
  change (Z.shiftr 224 5) with (Z.ones 3).
  rewrite Z.land_ones by lia.
  rewrite Z.shiftr_div_pow2 by lia.
  apply Z.mod_small. change (2 ^ 5) with 32. change (2 ^ 3) with 8.
  split; [apply Z.div_pos; lia | apply Z.div_lt_upper_bound; lia].
Qed.

Lemma top3_range f : 0 <= f < 256 -> 0 <= Z.shiftr f 5 < 8.
Proof.
  intros H. rewrite Z.shiftr_div_pow2 by lia. change (2 ^ 5) with 32.
  split; [apply Z.div_pos; lia | apply Z.div_lt_upper_bound; lia].
Qed.

Lemma wrap_u_wrap_u n m x : 0 <= n <= m -> wrap_u n (wrap_u m x) = wrap_u n x.
Proof.
  intros H. unfold wrap_u.
  apply Z.mod_mod_divide.
  exists (2 ^ (m - n)). rewrite <- Z.pow_add_r by lia. f_equal. lia.
Qed.

(** *** The number of digits that [number()] produces *)

Lemma digits_rev_nonempty base fuel v :
  (1 <= length (digits_rev base (S fuel) v))%nat.
Proof. simpl. lia. Qed.

Lemma digits_rev_length_le fuel (k : nat) v :
  (1 <= k)%nat -> 0 <= v < 16 ^ Z.of_nat k ->
  (length (digits_rev 16 fuel v) <= k)%nat.
Proof.
  revert k v. induction fuel as [|fuel IH]; intros k v Hk Hv; simpl; [lia|].
  destruct (Z.eqb_spec (v / 16) 0) as [Hz|Hnz]; simpl; [lia|].
  destruct k as [|[|k]]; [lia| |].
  - exfalso. apply Hnz. apply Z.div_small. change (16 ^ Z.of_nat 1) with 16 in Hv. lia.
  - apply le_n_S. apply IH; [lia|].
    rewrite (Nat2Z.inj_succ (S k)), Z.pow_succ_r in Hv by lia.
    split; [apply Z.div_pos; lia | apply Z.div_lt_upper_bound; lia].
Qed.

Lemma digits_rev_length_eq fuel (k : nat) v :
  (1 <= k <= fuel)%nat -> 16 ^ (Z.of_nat k - 1) <= v < 16 ^ Z.of_nat k ->
  length (digits_rev 16 fuel v) = k.
Proof.
  revert k v. induction fuel as [|fuel IH]; intros k v Hk Hv; [lia|].
  simpl. destruct k as [|[|k]]; [lia| |].
  - change (16 ^ Z.of_nat 1) with 16 in Hv.
    rewrite Z.div_small by lia. reflexivity.
  - assert (Hpos : 0 < 16 ^ Z.of_nat (S k)) by (apply Z.pow_pos_nonneg; lia).
    rewrite (Nat2Z.inj_succ (S k)), Z.pow_succ_r in Hv by lia.
    replace (Z.succ (Z.of_nat (S k)) - 1) with (Z.succ (Z.of_nat (S k) - 1)) in Hv by lia.
    rewrite Z.pow_succ_r in Hv by lia.
    assert (Hlo : 16 ^ (Z.of_nat (S k) - 1) <= v / 16)
      by (apply Z.div_le_lower_bound; lia).
    assert (Hhi : v / 16 < 16 ^ Z.of_nat (S k))
      by (apply Z.div_lt_upper_bound; lia).
    assert (H1 : 0 < 16 ^ (Z.of_nat (S k) - 1)) by (apply Z.pow_pos_nonneg; lia).
    destruct (Z.eqb_spec (v / 16) 0) as [Hz|Hnz]; [lia|].
    simpl. f_equal. apply IH; [lia|]. split; assumption.
Qed.

(** A value below 16^k (1 <= k <= 64) is printed with between 1 and k
    hexadecimal digits, and with k of them exactly when it reaches
    16^(k-1): there is no zero padding. *)
Lemma digits_16_length (k : nat) v :
  (1 <= k <= 64)%nat -> 0 <= v < 16 ^ Z.of_nat k ->
  (1 <= length (digits 16 v) <= k)%nat
  /\ (length (digits 16 v) = k <-> (k = 1%nat \/ 16 ^ (Z.of_nat k - 1) <= v)).
Proof.
  intros Hk Hv. unfold digits. rewrite length_rev.
  pose proof (digits_rev_nonempty 16 63 v) as Hne.
  pose proof (digits_rev_length_le 64 k v ltac:(lia) Hv) as Hle.
  split; [lia|]. split.
  - intros Hlen.
    destruct (decide (k = 1%nat)) as [|Hk1]; [by left|]. right.
    destruct (Z.le_gt_cases (16 ^ (Z.of_nat k - 1)) v) as [|Hlt]; [done|].
    exfalso.
    pose proof (digits_rev_length_le 64 (k - 1) v ltac:(lia)) as Hle'.
    replace (Z.of_nat (k - 1)) with (Z.of_nat k - 1) in Hle' by lia.
    specialize (Hle' ltac:(lia)). lia.
  - intros [-> | Hlo].
    + lia.
    + apply digits_rev_length_eq; [lia|]. lia.
Qed.

(** *** The digits printed denote the value *)

Lemma digit_val_digit_char d :
  0 <= d < 16 -> digit_val 16 (digit_char d) = Some d.
Proof.
  intros Hd.
  assert (Hall : forallb
    (fun n => bool_decide (digit_val 16 (digit_char n) = Some n))
    (Z.of_nat <$> seq 0 16) = true) by (vm_compute; reflexivity).
  rewrite forallb_forall in Hall.
  eapply bool_decide_eq_true_1, Hall.
  apply list_elem_of_In, list_elem_of_fmap. exists (Z.to_nat d). split; [lia|].
  apply elem_of_seq. lia.
Qed.

Lemma parse_digits_rev fuel v rest acc :
  0 <= v < 16 ^ Z.of_nat fuel ->
  parse_digits 16 (rev (digits_rev 16 fuel v) ++ rest) acc
  = parse_digits 16 rest
      (acc * 16 ^ Z.of_nat (length (digits_rev 16 fuel v)) + v).
Proof.
  revert v rest acc. induction fuel as [|fuel IH]; intros v rest acc Hv.
  - change (16 ^ Z.of_nat 0) with 1 in Hv.
    cbn [digits_rev rev app length].
    replace v with 0 by lia. f_equal. lia.
  - rewrite Nat2Z.inj_succ, Z.pow_succ_r in Hv by lia.
    assert (Hd : 0 <= v mod 16 < 16) by (apply Z.mod_pos_bound; lia).
    assert (Hq : 0 <= v / 16 < 16 ^ Z.of_nat fuel).
    { split; [apply Z.div_pos; lia | apply Z.div_lt_upper_bound; lia]. }
    pose proof (Z.div_mod v 16 ltac:(lia)) as Hdm.
    cbn [digits_rev].
    destruct (Z.eqb_spec (v / 16) 0) as [Hz|Hnz].
    + cbn [rev app length parse_digits]. rewrite digit_val_digit_char by done.
      f_equal. change (16 ^ Z.of_nat 1) with 16. lia.
    + cbn [rev length]. rewrite <- app_assoc, IH by done.
      cbn [app parse_digits]. rewrite digit_val_digit_char by done.
      f_equal. rewrite Nat2Z.inj_succ, Z.pow_succ_r by lia. lia.
Qed.

(** Scanning what "%x" printed gives the value back. *)
Lemma parse_digits_digits v :
  0 <= v < 2 ^ 64 -> parse_digits 16 (digits 16 v) 0 = (v, []).
Proof.
  intros Hv. unfold digits.
  rewrite <- (app_nil_r (rev _)), parse_digits_rev.
  - cbn [parse_digits]. f_equal.
  - assert (2 ^ 64 <= 16 ^ Z.of_nat 64) by (vm_compute; discriminate). lia.
Qed.

End CLibFacts.

(* ===================================================================== *)
(** ** drivers/hwmon/mcp9902.c: properties                               *)
(* ===================================================================== *)

Module Mcp9902_props.
Import Mcp9902 Fixtures.

(** *** The bus arbiter's release *)

(** C5 (as stated, refuted): with the device suspended, spi_unlock still
    sleeps: the 1 ms msleep is outside the [if]. *)
Lemma spi_unlock_suspended_still_delays :
  spi_unlock true [] = [Msleep 1; Spi_mutex_unlock]
  /\ existsb is_delay (spi_unlock true []) = true.
Proof. split; reflexivity. Qed.

(** C5 (amended): spi_unlock always sleeps 1 ms and then releases the
    mutex; the 100-200 us usleep_range precedes them exactly when the
    device is not runtime-suspended. Nothing else happens. *)
Theorem spi_unlock_delays (suspended : bool) (tr : list event) :
  spi_unlock suspended tr
  = tr ++ (if suspended then [] else [Usleep_range 100 200])
       ++ [Msleep 1; Spi_mutex_unlock].
Proof.
  unfold spi_unlock. destruct suspended; simpl.
  - by rewrite <- app_assoc.
  - by rewrite <- !app_assoc.
Qed.

(** *** The decoding of a reading *)

Lemma temp_from_reg_bytes raw f :
  0 <= raw < 256 -> 0 <= f < 256 ->
  temp_from_reg raw f = (raw - 64) * 1000 + Z.shiftr f 5 * 125.
Proof.
  intros Hr Hf. unfold temp_from_reg.
  rewrite top3_bits by done.
  pose proof (top3_range f Hf).
  apply int_small. lia.
Qed.

Lemma get_temp_range d i : wf_data d -> 0 <= get_temp d i < 256.
Proof.
  intros [_ Hall]. unfold get_temp.
  destruct (temp d !! index_of i) as [b|] eqn:E; simpl; [|lia].
  by apply (Forall_lookup_1 _ _ _ _ Hall E).
Qed.

Lemma wf_set_temp d i v : wf_data d -> wf_data (set_temp d i v).
Proof.
  intros [Hlen Hall]. split; simpl.
  - by rewrite length_insert.
  - apply Forall_insert; [done | apply u8_range].
Qed.

Lemma wf_read_regs chip st : wf_data st.1 -> wf_data (read_regs chip st).1.
Proof.
  unfold read_regs. generalize all_regs. intros l. revert st.
  induction l as [|i l IH]; intros st Hwf; simpl; [done|].
  apply IH. simpl. by apply wf_set_temp.
Qed.

Lemma wf_read_burst chip suspended st :
  wf_data st.1 -> wf_data (read_burst chip suspended st).1.
Proof.
  intros Hwf. unfold read_burst.
  pose proof (wf_read_regs chip (st.1, spi_lock st.2) Hwf) as H.
  destruct (read_regs chip (st.1, spi_lock st.2)) as [d tr]. simpl in *.
  destruct H as [Hlen Hall]. by split.
Qed.

Lemma wf_iter_burst chip suspended n st :
  wf_data st.1 -> wf_data (Nat.iter n (read_burst chip suspended) st).1.
Proof.
  intros Hwf. induction n as [|n IH]; [done|].
  exact (wf_read_burst chip suspended _ IH).
Qed.

Lemma wf_update_device jiffies chip suspended st :
  wf_data st.1 -> wf_data (mcp9902_update_device jiffies chip suspended st).1.
Proof.
  intros Hwf. unfold mcp9902_update_device.
  destruct (time_after _ _ || negb _); [|exact Hwf].
  pose proof (wf_iter_burst chip suspended 20 (st.1, st.2 ++ [Update_lock]) Hwf) as H.
  destruct (Nat.iter 20 _ _) as [d tr].
  exact H.
Qed.

(** C6: temp_show refreshes the cache and prints
    (raw - 64) * 1000 + (top three bits of f) * 125, where raw is the
    cached byte of the index shown and f is the cached byte at
    t_input1_fraction for t_input1, the cached byte at t_input2_fraction
    for t_input2, and 0 for every other index (the thresholds have no
    fraction register); raw 89 with fraction byte 0x20 decodes to
    25125. *)
Theorem temp_show_decodes (jiffies : Z) (chip : nat -> Z -> Z)
    (suspended : bool) (i : temp_index) (d : mcp9902_data) (tr : list event) :
  wf_data d ->
  let r := temp_show jiffies chip suspended i (d, tr) in
  let raw := get_temp r.2.1 i in
  let f := match i with
           | t_input1 => get_temp r.2.1 t_input1_fraction
           | t_input2 => get_temp r.2.1 t_input2_fraction
           | _ => 0
           end in
  r.2 = mcp9902_update_device jiffies chip suspended (d, tr)
  /\ 0 <= raw < 256 /\ 0 <= f < 256
  /\ r.1 = fmt_d ((raw - 64) * 1000 + Z.shiftr f 5 * 125) ++ [nl]
  /\ (i <> t_input1 -> i <> t_input2 -> f = 0)
  /\ temp_from_reg 89 0x20 = 25125.
Proof.
  intros Hwf r raw f.
  pose proof (wf_update_device jiffies chip suspended (d, tr) Hwf) as Hwf'.
  assert (Hraw : 0 <= raw < 256) by (by apply get_temp_range).
  assert (Hf : 0 <= f < 256).
  { subst f. destruct i; try lia; by apply get_temp_range. }
  split; [reflexivity|]. split; [done|]. split; [done|]. split; [|split].
  - subst r raw f. unfold temp_show. cbn [fst snd].
    rewrite temp_from_reg_bytes;
      [by destruct i | by apply get_temp_range |].
    unfold fraction_reg. destruct i; try lia; by apply get_temp_range.
  - intros H1 H2. subst f. by destruct i.
  - reflexivity.
Qed.

(** The example of the specification: empty cache, the chip answers 89 for the
    local temperature and 0x20 for its fraction byte; the reading shown
    is "25125\n". On a chip whose remote sensor answers 70 and 0xE0 the
    remote input reads "6875\n", with the remote fraction byte and not
    the local one, and a threshold whose register holds 0x55 reads
    "21000\n", without a fraction. *)
Lemma temp_show_decodes_witness :
  wf_data fresh_data
  /\ (temp_show 5 chip_89_20 false t_input1 (fresh_data, [])).1
     = list_ascii_of_string "25125" ++ [nl]
  /\ (temp_show 5 chip_two_sensors false t_input2 (fresh_data, [])).1
     = list_ascii_of_string "6875" ++ [nl]
  /\ (temp_show 5 chip_two_sensors false t_high1 (fresh_data, [])).1
     = list_ascii_of_string "21000" ++ [nl].
Proof.
  assert (Hwf : wf_data fresh_data).
  { split; [reflexivity|]. repeat constructor; lia. }
  split; [exact Hwf|].
  destruct (temp_show_decodes 5 chip_89_20 false t_input1 fresh_data [] Hwf)
    as (_ & _ & _ & Hlocal & _).
  destruct (temp_show_decodes 5 chip_two_sensors false t_input2 fresh_data [] Hwf)
    as (_ & _ & _ & Hremote & _).
  destruct (temp_show_decodes 5 chip_two_sensors false t_high1 fresh_data [] Hwf)
    as (_ & _ & _ & Hhigh & _).
  rewrite Hlocal, Hremote, Hhigh. vm_compute. by repeat split.
Defined.

(** *** The threshold round trip *)

(** What a threshold V = 1000 * k (0 <= k <= 255) reads back as: the
    offset of 64 is added to the milli-degree value before the division
    and is lost in it, so the decoded value is V - 64000. *)
Lemma temp_roundtrip_offset k :
  0 <= k <= 255 ->
  temp_from_reg (u8 (temp_to_reg (int (1000 * k)))) 0 = 1000 * k - 64000.
Proof.
  intros Hk. unfold temp_to_reg.
  rewrite (int_small (1000 * k)) by lia.
  rewrite int_small by lia.
  assert (Hq : Z.quot (1000 * k + 64) 1000 = k).
  { rewrite Z.quot_div_nonneg by lia.
    symmetry. apply (Z.div_unique _ _ _ 64); lia. }
  rewrite Hq, u8_small by lia.
  rewrite temp_from_reg_bytes by lia.
  change (Z.shiftr 0 5) with 0. lia.
Qed.

(** C1 (the code at the failing input): writing the threshold 25000 to
    temp1_max stores the byte 25, and reading temp1_max back from the
    still fresh cache shows -39000, not 25000. *)
Theorem temp_store_show_25000 :
  let st := (temp_store kstrtol_25000 false t_high1 "25000" 6 (cached_data, [])).2 in
  get_temp st.1 t_high1 = 25
  /\ (temp_show 1000 chip_89_20 false t_high1 st).1
     = list_ascii_of_string "-39000" ++ [nl]
  /\ temp_from_reg (temp_to_reg 25000) 0 = -39000.
Proof. vm_compute. repeat split; reflexivity. Qed.

End Mcp9902_props.

(* ===================================================================== *)
(** ** net/dsa/master.c: properties                                      *)
(* ===================================================================== *)

Module Master_props.
Import Master Fixtures.

Section TagProtocol.
Context {priv : Type}.
Implicit Types (s : state priv) (t p : nat).

Lemma refs_add_ref s t n p :
  refs (add_ref t n s) p = refs s p + (if decide (p = t) then n else 0).
Proof.
  unfold refs at 1. unfold add_ref. cbn [refcount].
  rewrite lookup_insert.
  destruct (decide (t = p)) as [->|Hne].
  - rewrite decide_True by done. done.
  - rewrite decide_False by congruence. fold (refs s p). lia.
Qed.

Lemma tag_ops_add_ref s t n : tag_ops (add_ref t n s) = tag_ops s.
Proof. done. Qed.

Lemma refs_set_tag_ops s t p : refs (set_tag_ops t s) p = refs s p.
Proof. done. Qed.

(** C2: tagging_cpu_store keeps "the tree holds exactly one reference,
    and it is on the active protocol" on every path, and does one of:
    lookup failure, nothing changes; no-op (Q = P), success, P stays
    active with its count unchanged; tree-wide apply succeeds, Q is
    active, P lost its reference; tree-wide apply fails, the error is
    returned, P is still active and every reference count (P's, and Q's
    after the speculative reference is put back) is what it was. *)
Theorem tagging_cpu_store_atomic (drivers : list dsa_tag_driver)
    (tree_notify : nat -> Z) (buf : string) (count : Z) s
    (others : nat -> Z) :
  one_active_reference others s ->
  let P := tag_ops s in
  let r := tagging_cpu_store drivers tree_notify buf count s in
  one_active_reference others r.2
  /\ match (dsa_find_tagger_by_name drivers buf s).1 with
     | inl err => r = (err, s)
     | inr Q =>
         if (Q =? P)%nat then
           r.1 = count /\ tag_ops r.2 = P /\ (forall p, refs r.2 p = refs s p)
         else if tree_notify Q =? 0 then
           r.1 = count /\ tag_ops r.2 = Q
           /\ refs r.2 P = refs s P - 1 /\ refs r.2 Q = refs s Q + 1
         else
           r.1 = tree_notify Q /\ tag_ops r.2 = P
           /\ (forall p, refs r.2 p = refs s p)
     end.
Proof.
  intros Hinv P r. subst r. unfold tagging_cpu_store, dsa_find_tagger_by_name.
  destruct (lookup_by_name drivers _ 0) as [[Q drv]|]; [|by split].
  destruct (available drv); [|by split].
  cbn [fst snd]. fold P.
  destruct (Nat.eqb_spec Q P) as [->|Hne].
  - (* the tree already uses this tagger *)
    assert (Hsame : forall p,
      refs (dsa_tag_driver_put P (add_ref P 1 s)) p = refs s p).
    { intros p. unfold dsa_tag_driver_put. rewrite !refs_add_ref.
      destruct (decide (p = P)); lia. }
    split; [|by repeat split].
    intros p. rewrite Hsame. apply Hinv.
  - unfold dsa_tree_change_tag_proto. cbv zeta.
    destruct (tree_notify Q =? 0) eqn:E0; cbn [negb fst snd].
    + (* success: the old tagger is put *)
      change (0 =? 0) with true. cbn [negb fst snd].
      unfold dsa_tag_driver_put.
      split.
      * intros p.
        rewrite refs_add_ref, refs_set_tag_ops, refs_add_ref, (Hinv p).
        rewrite tag_ops_add_ref. cbn [tag_ops set_tag_ops]. fold P.
        destruct (decide (p = P)), (decide (p = Q)); subst; lia.
      * rewrite !refs_add_ref, !refs_set_tag_ops, !refs_add_ref.
        destruct (decide (P = Q)), (decide (P = P)), (decide (Q = Q)),
          (decide (Q = P)); try congruence.
        repeat split; lia.
    + (* failure: the new tagger is put *)
      rewrite E0. cbn [negb fst snd].
      assert (Hsame : forall p,
        refs (dsa_tag_driver_put Q (add_ref Q 1 s)) p = refs s p).
      { intros p. unfold dsa_tag_driver_put. rewrite !refs_add_ref.
        destruct (decide (p = Q)); lia. }
      split; [|by repeat split].
      intros p. rewrite Hsame. apply Hinv.
Qed.

(** C10: once the name resolves and the driver has a
    change_tag_protocol hook, tagging_imp_store calls the hook for port
    8, returns [count] whatever the hook returns, and leaves the
    reference that the lookup took in place: the count of the tagger is
    one higher than before, all others are as before. *)
Theorem tagging_imp_store_keeps_reference (drivers : list dsa_tag_driver)
    (ds : dsa_switch priv) (buf : string) (count : Z) s (t : nat)
    (change : priv -> Z -> Z -> Z * priv) :
  (dsa_find_tagger_by_name drivers buf s).1 = inr t ->
  change_tag_protocol (ds_ops ds) = Some change ->
  let r := tagging_imp_store drivers ds buf count s in
  r.1 = count
  /\ calls r.2 = calls s ++ [Call_change_tag_protocol 8 (proto_of drivers t)]
  /\ ds_priv r.2 = (change (ds_priv s) 8 (proto_of drivers t)).2
  /\ tag_ops r.2 = tag_ops s
  /\ (forall p, refs r.2 p = refs s p + (if decide (p = t) then 1 else 0)).
Proof.
  intros Hfind Hchange r. subst r. unfold tagging_imp_store.
  revert Hfind. unfold dsa_find_tagger_by_name.
  destruct (lookup_by_name drivers _ 0) as [[t' drv]|]; [|done].
  destruct (available drv); [|done].
  cbn [fst snd]. intros [= ->]. rewrite Hchange.
  destruct (change _ 8 _) as [ret p'] eqn:E. cbn [fst snd].
  repeat split. intros p. apply (refs_add_ref s t 1 p).
Qed.

End TagProtocol.

(** The failing hook of the fixture returns -EINVAL; the write of
    "brcm-prepend" still returns its [count] 12, and tagger 1 keeps the
    reference. *)
Lemma tagging_imp_store_keeps_reference_witness :
  (dsa_find_tagger_by_name tag_drivers "brcm-prepend" init_state).1 = inr 1%nat
  /\ (b53_change_tag_protocol init_priv 8 2).1 = - EINVAL
  /\ (tagging_imp_store tag_drivers sw0 "brcm-prepend" 12 init_state).1 = 12
  /\ refs (tagging_imp_store tag_drivers sw0 "brcm-prepend" 12 init_state).2 1%nat
     = refs init_state 1%nat + 1.
Proof.
  assert (Hfind : (dsa_find_tagger_by_name tag_drivers "brcm-prepend"
                     init_state).1 = inr 1%nat) by reflexivity.
  destruct (tagging_imp_store_keeps_reference tag_drivers sw0 "brcm-prepend"
              12 init_state 1%nat b53_change_tag_protocol Hfind eq_refl)
    as (Hret & _ & _ & _ & Hrefs).
  split; [exact Hfind|]. split; [reflexivity|]. split; [exact Hret|].
  exact (Hrefs 1%nat).
Defined.

Lemma init_state_one_reference : one_active_reference (fun _ => 0) init_state.
Proof.
  intros p. unfold refs, init_state. cbn [refcount tag_ops].
  rewrite lookup_singleton.
  destruct (decide (0%nat = p)) as [<-|Hne].
  - by rewrite decide_True.
  - by rewrite decide_False by congruence.
Qed.

(** A failing tree-wide apply (-EBUSY) while switching from "brcm" to
    "brcm-prepend": the error comes back, "brcm" is still active with
    its one reference, "brcm-prepend" has none. *)
Lemma tagging_cpu_store_atomic_witness :
  one_active_reference (fun _ => 0) init_state
  /\ let r := tagging_cpu_store tag_drivers (fun _ => - EBUSY)
                "brcm-prepend" 12 init_state in
     one_active_reference (fun _ => 0) r.2
     /\ r.1 = - EBUSY /\ tag_ops r.2 = 0%nat
     /\ refs r.2 0%nat = 1 /\ refs r.2 1%nat = 0.
Proof.
  split; [exact init_state_one_reference|].
  destruct (tagging_cpu_store_atomic tag_drivers (fun _ => - EBUSY)
              "brcm-prepend" 12 init_state (fun _ => 0)
              init_state_one_reference) as [Hinv Hpath].
  split; [exact Hinv|].
  change ((dsa_find_tagger_by_name tag_drivers "brcm-prepend" init_state).1)
    with (@inr Z nat 1%nat) in Hpath.
  cbv beta iota in Hpath.
  change ((1 =? tag_ops init_state)%nat) with false in Hpath.
  change (- EBUSY =? 0) with false in Hpath.
  cbv beta iota in Hpath.
  destruct Hpath as (Hret & Htag & Hrefs).
  split; [exact Hret|]. split; [exact Htag|].
  rewrite !Hrefs. split; reflexivity.
Defined.

(** *** ioctl *)

Section Ioctl.
Context {priv ifreq : Type}.

Lemma deny_hwtstamp_some (supports : dsa_port priv -> ifreq -> bool)
    (ports : list (dsa_port priv)) (ifr : ifreq) :
  (exists dp, dp ∈ ports /\ supports dp ifr = true) ->
  deny_hwtstamp supports ports ifr = Some (- EBUSY).
Proof.
  induction ports as [|dp ports IH]; intros (dp' & Hin & Hsup).
  - by apply elem_of_nil in Hin.
  - simpl. destruct (supports dp ifr) eqn:E; [done|].
    apply IH. exists dp'. split; [|done].
    apply elem_of_cons in Hin as [->|Hin]; [congruence | done].
Qed.

Lemma deny_hwtstamp_none (supports : dsa_port priv -> ifreq -> bool)
    (ports : list (dsa_port priv)) (ifr : ifreq) :
  (forall dp, dp ∈ ports -> supports dp ifr = false) ->
  deny_hwtstamp supports ports ifr = None.
Proof.
  induction ports as [|dp ports IH]; intros Hall; [done|].
  simpl. rewrite (Hall dp) by apply list_elem_of_here.
  apply IH. intros dp' Hin. apply Hall. by apply list_elem_of_further.
Qed.

(** C8: for SIOCGHWTSTAMP and SIOCSHWTSTAMP, dsa_master_ioctl returns
    -EBUSY when some port of the tree supports hardware timestamping for
    the request, and otherwise the result of the master's own
    ndo_eth_ioctl, or -EOPNOTSUPP when the master has none; every other
    command is forwarded in the same way. *)
Theorem dsa_master_ioctl_hwtstamp (supports : dsa_port priv -> ifreq -> bool)
    (ports : list (dsa_port priv)) (ndo_eth_ioctl : option (ifreq -> Z -> Z))
    (ifr : ifreq) (cmd : Z) :
  let forward := match ndo_eth_ioctl with
                 | Some ioctl => ioctl ifr cmd
                 | None => - EOPNOTSUPP
                 end in
  let r := dsa_master_ioctl supports ports ndo_eth_ioctl ifr cmd in
  (is_hwtstamp_cmd cmd ->
   (exists dp, dp ∈ ports /\ supports dp ifr = true) -> r = - EBUSY)
  /\ (is_hwtstamp_cmd cmd ->
      (forall dp, dp ∈ ports -> supports dp ifr = false) -> r = forward)
  /\ (~ is_hwtstamp_cmd cmd -> r = forward).
Proof.
  intros forward r. subst r forward. unfold dsa_master_ioctl, is_hwtstamp_cmd.
  split; [|split].
  - intros Hcmd Hex.
    assert ((cmd =? SIOCGHWTSTAMP) || (cmd =? SIOCSHWTSTAMP) = true) as ->.
    { destruct Hcmd as [->| ->]; [by rewrite Z.eqb_refl | ].
      rewrite Z.eqb_refl. by rewrite orb_true_r. }
    by rewrite deny_hwtstamp_some.
  - intros Hcmd Hall.
    rewrite deny_hwtstamp_none by done.
    by destruct (_ || _).
  - intros Hcmd.
    destruct (Z.eqb_spec cmd SIOCGHWTSTAMP); [tauto|].
    destruct (Z.eqb_spec cmd SIOCSHWTSTAMP); [tauto|]. done.
Qed.

End Ioctl.

(** SIOCSHWTSTAMP is refused when port 2 can timestamp; SIOCGHWTSTAMP is
    forwarded when no port can; SIOCGMIIPHY (0x8947) is forwarded, and
    is -EOPNOTSUPP on a master without the hook. *)
Lemma dsa_master_ioctl_hwtstamp_witness :
  dsa_master_ioctl (fun dp (_ : unit) => dp_index dp =? 2) (tree_ports sw0)
    (Some (fun _ _ => 0)) tt SIOCSHWTSTAMP = - EBUSY
  /\ dsa_master_ioctl (fun _ (_ : unit) => false) (tree_ports sw0)
       (Some (fun _ _ => 7)) tt SIOCGHWTSTAMP = 7
  /\ dsa_master_ioctl (fun dp (_ : unit) => dp_index dp =? 2) (tree_ports sw0)
       None tt 0x8947 = - EOPNOTSUPP.
Proof.
  destruct (dsa_master_ioctl_hwtstamp
              (fun dp (_ : unit) => dp_index dp =? 2) (tree_ports sw0)
              (Some (fun _ _ => 0)) tt SIOCSHWTSTAMP) as (Hbusy & _ & _).
  destruct (dsa_master_ioctl_hwtstamp
              (fun _ (_ : unit) => false) (tree_ports sw0)
              (Some (fun _ _ => 7)) tt SIOCGHWTSTAMP) as (_ & Hfree & _).
  destruct (dsa_master_ioctl_hwtstamp
              (fun dp (_ : unit) => dp_index dp =? 2) (tree_ports sw0)
              None tt 0x8947) as (_ & _ & Hother).
  split; [|split].
  - apply Hbusy.
    + right. reflexivity.
    + exists (port_of sw0 DSA_PORT_TYPE_USER 2). split; [|reflexivity].
      apply list_elem_of_In. simpl. tauto.
  - apply Hfree.
    + left. reflexivity.
    + reflexivity.
  - apply Hother.
    unfold is_hwtstamp_cmd, SIOCGHWTSTAMP, SIOCSHWTSTAMP. lia.
Defined.

(** *** pvlan *)

Section Pvlan.
Context {priv : Type}.
Implicit Types (s : state priv) (ports : list (dsa_port priv)).

Lemma pvlan_store_ports_found ports index value count s :
  (exists dp, dp ∈ ports /\ used_port index dp) ->
  (forall dp, dp ∈ ports -> used_port index dp ->
     is_Some (port_get_pvlan (ds_ops (dp_ds dp)))
     /\ is_Some (port_change_pvlan (ds_ops (dp_ds dp)))) ->
  exists dp change,
    dp ∈ ports /\ used_port index dp
    /\ port_change_pvlan (ds_ops (dp_ds dp)) = Some change
    /\ pvlan_store_ports ports index value count s
       = Some (count, called (Call_port_change_pvlan index value)
                        (change (ds_priv s) index value).2 s).
Proof.
  induction ports as [|dp ports IH]; intros (dp0 & Hin & Hused) Hhooks.
  - by apply elem_of_nil in Hin.
  - simpl.
    destruct ((dp_index dp =? index) && negb (is_unused (dp_type dp))) eqn:E.
    + apply andb_true_iff in E as [Hi Hu].
      apply Z.eqb_eq in Hi. apply negb_true_iff in Hu.
      destruct (Hhooks dp (list_elem_of_here _ _) (conj Hi Hu))
        as [[get Hget] [change Hchange]].
      rewrite Hget, Hchange.
      exists dp, change. split; [apply list_elem_of_here|].
      split; [by split|]. split; [done|].
      by destruct (change (ds_priv s) index value).
    + apply elem_of_cons in Hin as [->|Hin].
      { destruct Hused as [Hi Hu]. rewrite Hi, Hu, Z.eqb_refl in E. done. }
      destruct IH as (dp' & change & Hin' & Hused' & Hchange & Hres).
      * by exists dp0.
      * intros dp' Hin' Hused'. apply Hhooks; [|done].
        by apply list_elem_of_further.
      * exists dp', change. split; [by apply list_elem_of_further|]. done.
Qed.

Lemma pvlan_store_ports_absent ports index value count s :
  (forall dp, dp ∈ ports -> dp_index dp <> index) ->
  pvlan_store_ports ports index value count s = Some (- EINVAL, s).
Proof.
  induction ports as [|dp ports IH]; intros Hnone; [done|].
  simpl.
  destruct (Z.eqb_spec (dp_index dp) index) as [Hi|_].
  - exfalso. by apply (Hnone dp (list_elem_of_here _ _)).
  - simpl. apply IH. intros dp' Hin. apply Hnone. by apply list_elem_of_further.
Qed.

(** C9 (amended): on a tree that has a used port with index 3, and whose
    used ports with index 3 belong to a switch driver with both pvlan
    hooks, the write "3:0a5" calls port_change_pvlan with index 3 and
    value 0x0A5 and returns [count]; on a tree with no port of index 99,
    the write "99:0a5" returns -EINVAL and calls nothing. *)
Theorem pvlan_store_scenarios ports (count : Z) s :
  ((exists dp, dp ∈ ports /\ used_port 3 dp) ->
   (forall dp, dp ∈ ports -> used_port 3 dp ->
      is_Some (port_get_pvlan (ds_ops (dp_ds dp)))
      /\ is_Some (port_change_pvlan (ds_ops (dp_ds dp)))) ->
   exists dp change,
     dp ∈ ports /\ used_port 3 dp
     /\ port_change_pvlan (ds_ops (dp_ds dp)) = Some change
     /\ pvlan_store ports "3:0a5" count s
        = Some (count, called (Call_port_change_pvlan 3 0x0A5)
                         (change (ds_priv s) 3 0x0A5).2 s))
  /\ ((forall dp, dp ∈ ports -> dp_index dp <> 99) ->
      pvlan_store ports "99:0a5" count s = Some (- EINVAL, s)).
Proof.
  split.
  - intros Hex Hhooks.
    change (pvlan_store ports "3:0a5" count s)
      with (pvlan_store_ports ports 3 0x0A5 count s).
    by apply pvlan_store_ports_found.
  - intros Hnone.
    change (pvlan_store ports "99:0a5" count s)
      with (pvlan_store_ports ports 99 0x0A5 count s).
    by apply pvlan_store_ports_absent.
Qed.

End Pvlan.

(** C9 (as stated, refuted): the tree has a used port 3, but its switch
    driver has no pvlan hooks; the write "3:0a5" returns -EOPNOTSUPP and
    calls nothing. *)
Lemma pvlan_store_without_hooks :
  port_of sw_bare DSA_PORT_TYPE_USER 3 ∈ tree_ports sw_bare
  /\ pvlan_store (tree_ports sw_bare) "3:0a5" 6 init_state
     = Some (- EOPNOTSUPP, init_state).
Proof.
  split; [|reflexivity].
  apply list_elem_of_In. simpl. tauto.
Qed.

Lemma tree_ports_used_3 (dp : dsa_port b53_priv) :
  dp ∈ tree_ports sw0 -> used_port 3 dp -> dp = port_of sw0 DSA_PORT_TYPE_USER 3.
Proof.
  intros Hin [Hi Hu]. apply list_elem_of_In in Hin. simpl in Hin.
  destruct Hin as [<-|[<-|[<-|[<-|[<-|[<-|[]]]]]]]; simpl in *;
    try reflexivity; try discriminate.
Qed.

(** On the fixture tree the write "3:0a5" sets the membership of port 3
    to 0x0A5 and returns its [count]; "99:0a5" is refused. *)
Lemma pvlan_store_scenarios_witness :
  (exists dp, dp ∈ tree_ports sw0 /\ used_port 3 dp)
  /\ (exists s',
        pvlan_store (tree_ports sw0) "3:0a5" 6 init_state = Some (6, s')
        /\ calls s' = [Call_port_change_pvlan 3 0x0A5]
        /\ pvlan (ds_priv s') 3 = 0x0A5)
  /\ pvlan_store (tree_ports sw0) "99:0a5" 7 init_state
     = Some (- EINVAL, init_state).
Proof.
  assert (Hex : exists dp, dp ∈ tree_ports sw0 /\ used_port 3 dp).
  { exists (port_of sw0 DSA_PORT_TYPE_USER 3). split; [|by split].
    apply list_elem_of_In. simpl. tauto. }
  destruct (pvlan_store_scenarios (tree_ports sw0) 6 init_state) as [Hfound _].
  destruct (pvlan_store_scenarios (tree_ports sw0) 7 init_state) as [_ Habsent].
  split; [exact Hex|]. split.
  - destruct (Hfound Hex) as (dp & change & Hin & Hused & Hchange & Hres).
    { intros dp Hin Hused. rewrite (tree_ports_used_3 dp Hin Hused).
      split; eexists; reflexivity. }
    rewrite (tree_ports_used_3 dp Hin Hused) in Hchange.
    injection Hchange as <-.
    eexists. split; [exact Hres|]. split; reflexivity.
  - apply Habsent. intros dp Hin. apply list_elem_of_In in Hin. simpl in Hin.
    destruct Hin as [<-|[<-|[<-|[<-|[<-|[<-|[]]]]]]]; simpl; lia.
Defined.

(** *** ethtool strings *)

Section Strings.

Lemma list_inserts_at (l1 k l2 l3 : list Z) :
  length k = length l2 ->
  list_inserts (length l1) k (l1 ++ l2 ++ l3) = l1 ++ k ++ l3.
Proof.
  intros Hlen. replace (length l1) with (length l1 + 0)%nat by lia.
  by rewrite list_inserts_app_r, list_inserts_0_r.
Qed.

(** One pass of the loop on a buffer whose first [i] strings are [done_]
    and whose rest is [rest]. *)
Lemma prefix_string_step (pfx done_ rest : list Z) (i : nat) :
  length pfx = 4%nat -> length done_ = (i * 32)%nat -> (32 <= length rest)%nat ->
  prefix_string pfx (done_ ++ rest) i
  = done_ ++ (pfx ++ take 28 rest) ++ drop 32 rest.
Proof.
  intros Hpfx Hdone Hrest.
  unfold prefix_string, memmove, memcpy, ETH_GSTRING_LEN. rewrite Hpfx.
  rewrite (drop_app_length' done_ rest) by done.
  assert (Hsplit : rest = take 4 rest ++ take 28 (drop 4 rest) ++ drop 32 rest).
  { change (drop 32 rest) with (drop (4 + 28) rest).
    rewrite <- (drop_drop rest 28 4), take_drop. by rewrite take_drop. }
  rewrite Hsplit at 2.
  replace (i * 32 + 4)%nat with (length (done_ ++ take 4 rest))
    by (rewrite length_app, length_take; lia).
  rewrite (app_assoc done_).
  rewrite list_inserts_at
    by (rewrite !length_take, length_drop; lia).
  rewrite <- (app_assoc done_).
  replace (i * 32)%nat with (length done_) by done.
  rewrite list_inserts_at by (rewrite length_take; lia).
  by rewrite <- app_assoc.
Qed.

Lemma prefixed_strings_S (pfx ndata : list Z) (n : nat) :
  prefixed_strings pfx ndata (S n)
  = prefixed_strings pfx ndata n
      ++ pfx ++ take (ETH_GSTRING_LEN - length pfx) (gstring ndata n).
Proof.
  unfold prefixed_strings. rewrite seq_S, fmap_app, concat_app.
  cbn [fmap list_fmap concat Nat.add]. by rewrite app_nil_r.
Qed.

Lemma length_prefixed_strings (pfx ndata : list Z) (n : nat) :
  length pfx = 4%nat -> (n * 32 <= length ndata)%nat ->
  length (prefixed_strings pfx ndata n) = (n * 32)%nat.
Proof.
  intros Hpfx. induction n as [|n IH]; intros Hlen; [done|].
  rewrite prefixed_strings_S, !length_app, IH, Hpfx by lia.
  unfold gstring, ETH_GSTRING_LEN.
  rewrite !length_take, length_drop. lia.
Qed.

(** The loop builds the prefixed strings and leaves the rest alone. *)
Lemma foldl_prefix_string (pfx ndata : list Z) (n : nat) :
  length pfx = 4%nat -> (n * 32 <= length ndata)%nat ->
  foldl (prefix_string pfx) ndata (seq 0 n)
  = prefixed_strings pfx ndata n ++ drop (n * 32) ndata.
Proof.
  intros Hpfx. induction n as [|n IH]; intros Hlen; [done|].
  rewrite seq_S, foldl_app, IH by lia.
  cbn [foldl Nat.add].
  rewrite prefix_string_step;
    [ | done | by apply length_prefixed_strings; [|lia]
      | rewrite length_drop; lia ].
  rewrite prefixed_strings_S, <- !app_assoc. do 2 f_equal.
  rewrite Hpfx. unfold gstring, ETH_GSTRING_LEN.
  rewrite take_take, drop_drop. f_equal.
  f_equal. lia.
Qed.

Lemma gstring_prefixed_strings (pfx ndata tail : list Z) (n i : nat) :
  length pfx = 4%nat -> (n * 32 <= length ndata)%nat -> (i < n)%nat ->
  gstring (prefixed_strings pfx ndata n ++ tail) i
  = pfx ++ take 28 (gstring ndata i).
Proof.
  intros Hpfx. revert tail. induction n as [|n IH]; intros tail Hlen Hi; [lia|].
  rewrite prefixed_strings_S, <- app_assoc.
  destruct (decide (i = n)) as [->|Hne].
  - unfold gstring at 1. unfold ETH_GSTRING_LEN at 1 2.
    rewrite drop_app_length' by (by rewrite length_prefixed_strings; [| |lia]).
    rewrite Hpfx, <- app_assoc.
    rewrite (app_assoc pfx).
    rewrite take_app_length'; [done|].
    rewrite length_app, Hpfx. unfold gstring, ETH_GSTRING_LEN.
    rewrite !length_take, length_drop. lia.
  - apply IH; lia.
Qed.

End Strings.

Section GetStrings.
Context {priv : Type}.

Lemma port_pfx_digits (port : Z) :
  0 <= port <= 99 ->
  port_pfx port
  = [byte_of "p"; 48 + port / 10; 48 + port mod 10; byte_of "_"].
Proof.
  intros Hport.
  assert (Hall : forallb
    (fun n => bool_decide
       (port_pfx n = [byte_of "p"; 48 + n / 10; 48 + n mod 10; byte_of "_"]))
    (Z.of_nat <$> seq 0 100) = true) by (vm_compute; reflexivity).
  rewrite forallb_forall in Hall.
  eapply bool_decide_eq_true_1, Hall.
  apply list_elem_of_In, list_elem_of_fmap. exists (Z.to_nat port). split; [lia|].
  apply elem_of_seq. lia.
Qed.

(** C7: with a port index from 0 to 99, dsa_master_get_strings leaves
    the master's strings as the master wrote them, and turns every string
    of the switch segment into the four bytes 'p', tens digit, units
    digit, '_' followed by the first 28 bytes of the string the switch
    driver wrote; every string keeps its 32 bytes and its place, and
    the buffer keeps its length. *)
Theorem dsa_master_get_strings_prefix (ops : ethtool_ops)
    (phydev : option phy_device) (ds : dsa_switch priv) (port stringset : Z)
    (data : list Z) (strs : Z -> Z -> list Z -> list Z) (cnt : Z -> Z -> Z) :
  0 <= port <= 99 ->
  ds_get_strings (ds_ops ds) = Some strs ->
  ds_get_sset_count (ds_ops ds) = Some cnt ->
  let mdata := (master_strings ops phydev stringset data).1 in
  let mcount := Z.to_nat (master_strings ops phydev stringset data).2 in
  let sdata := strs port stringset (drop (mcount * 32) mdata) in
  let count := Z.to_nat (cnt port stringset) in
  0 <= cnt port stringset ->
  (mcount * 32 <= length mdata)%nat ->
  (count * 32 <= length sdata)%nat ->
  exists out,
    dsa_master_get_strings ops phydev ds port stringset data = Some out
    /\ length out = (mcount * 32 + length sdata)%nat
    /\ take (mcount * 32) out = take (mcount * 32) mdata
    /\ (forall i, (i < count)%nat ->
          gstring out (mcount + i)
          = [byte_of "p"; 48 + port / 10; 48 + port mod 10; byte_of "_"]
              ++ take 28 (gstring sdata i))
    /\ drop ((mcount + count) * 32) out = drop (count * 32) sdata.
Proof.
  intros Hport Hstrs Hcnt mdata mcount sdata count Hcount Hm Hs.
  pose proof (port_pfx_digits port Hport) as Hpfx.
  assert (Hplen : length (port_pfx port) = 4%nat) by (by rewrite Hpfx).
  unfold dsa_master_get_strings.
  destruct (master_strings ops phydev stringset data) as [md mc] eqn:Em.
  cbn [fst snd] in mdata, mcount. rewrite Hstrs, Hcnt.
  destruct (Z.ltb_spec (cnt port stringset) 0) as [|_]; [lia|].
  eexists. split; [reflexivity|].
  fold mcount. fold mdata. unfold ETH_GSTRING_LEN.
  assert (Hoff : length (take (mcount * 32) mdata) = (mcount * 32)%nat)
    by (rewrite length_take; lia).
  unfold at_offset.
  rewrite (take_app_length' (take (mcount * 32) mdata)) by done.
  rewrite (drop_app_length' (take (mcount * 32) mdata)) by done.
  fold sdata. fold count.
  rewrite foldl_prefix_string by done.
  pose proof (length_prefixed_strings (port_pfx port) sdata count Hplen Hs) as Hl.
  split; [|split; [|split]].
  - rewrite !length_app, Hoff, Hl, length_drop. lia.
  - by rewrite take_app_length'.
  - intros i Hi. unfold gstring at 1. unfold ETH_GSTRING_LEN.
    replace ((mcount + i) * 32)%nat with (mcount * 32 + i * 32)%nat by lia.
    rewrite <- drop_drop, drop_app_length' by done.
    rewrite <- Hpfx.
    by apply (gstring_prefixed_strings (port_pfx port) sdata _ count i).
  - replace ((mcount + count) * 32)%nat with (mcount * 32 + count * 32)%nat by lia.
    rewrite <- drop_drop, drop_app_length' by done.
    by rewrite drop_app_length'.
Qed.

End GetStrings.

(** *** Malformed writes *)

Section Writes.
Context {priv : Type}.
Implicit Types (s : state priv) (ports : list (dsa_port priv))
  (ds : dsa_switch priv).

(** C3 (amended): a write whose text does not yield every field of its
    format (2 for pvlan, 3 for rdreg, 4 for wrreg), and a spi_mutex
    write whose length is not 2, returns -EINVAL and leaves the state,
    with its log of driver and arbiter calls, as it was. The width is
    not looked at: once the fields parse, rdreg_store and wrreg_store
    hand page, register and width to the driver hook as they are, and
    return [count] when the hook returns 0 and -EIO otherwise. *)
Theorem malformed_write_rejected ports ds (buf : string) (count : Z) s :
  (length (sscanf buf pvlan_fmt) <> 2%nat ->
   pvlan_store ports buf count s = Some (- EINVAL, s))
  /\ (length (sscanf buf rdreg_fmt) <> 3%nat ->
      rdreg_store ds buf count s = Some (- EINVAL, s))
  /\ (length (sscanf buf wrreg_fmt) <> 4%nat ->
      wrreg_store ds buf count s = Some (- EINVAL, s))
  /\ (count <> 2 -> spi_mutex_store buf count s = (- EINVAL, s))
  /\ (forall page reg size setup,
        sscanf buf rdreg_fmt = [page; reg; size] ->
        switch_setup_get_reg (ds_ops ds) = Some setup ->
        rdreg_store ds buf count s
        = Some (if (setup (ds_priv s) page reg size).1 =? 0 then count else - EIO,
                called (Call_switch_setup_get_reg page reg size)
                  (setup (ds_priv s) page reg size).2 s))
  /\ (forall page reg size value set,
        sscanf buf wrreg_fmt = [page; reg; size; value] ->
        switch_set_reg (ds_ops ds) = Some set ->
        wrreg_store ds buf count s
        = Some (if (set (ds_priv s) page reg size value).1 =? 0 then count else - EIO,
                called (Call_switch_set_reg page reg size value)
                  (set (ds_priv s) page reg size value).2 s)).
Proof.
  repeat split.
  - intros Hlen. unfold pvlan_store.
    by destruct (sscanf buf pvlan_fmt) as [|? [|? [|? ?]]].
  - intros Hlen. unfold rdreg_store.
    by destruct (sscanf buf rdreg_fmt) as [|? [|? [|? [|? ?]]]].
  - intros Hlen. unfold wrreg_store.
    by destruct (sscanf buf wrreg_fmt) as [|? [|? [|? [|? [|? ?]]]]].
  - intros Hcount. unfold spi_mutex_store.
    by destruct (Z.eqb_spec count 2).
  - intros page reg size setup Hscan Hsetup. unfold rdreg_store.
    rewrite Hscan, Hsetup.
    destruct (setup (ds_priv s) page reg size) as [ret p]. cbn [fst snd].
    by destruct (ret =? 0).
  - intros page reg size value set Hscan Hset. unfold wrreg_store.
    rewrite Hscan, Hset.
    destruct (set (ds_priv s) page reg size value) as [ret p]. cbn [fst snd].
    by destruct (ret =? 0).
Qed.

(** *** The register read-out *)

(** C4 (amended): when the driver answers a read with a width in
    {1,2,4,6,8} and a value, rdreg_show puts the value, cut to the width
    (to 8 bytes for widths 6 and 8), in lower-case hexadecimal without
    leading zeros, and a newline: at least one and at most 2 * width
    digits (16 for widths 6 and 8), and 2 * width of them only when the
    top hex digit is not zero; read as a hexadecimal number the digits
    give the cut value back. It returns the length of the text. *)
Theorem rdreg_show_hex ds s (get : priv -> (Z * Z * Z) * priv)
    (size value : Z) (p : priv) :
  switch_get_reg (ds_ops ds) = Some get ->
  get (ds_priv s) = ((0, size, value), p) ->
  size ∈ [1; 2; 4; 6; 8] ->
  let w := printed_bytes size in
  let v := value mod 2 ^ (8 * w) in
  let hex := digits 16 v in
  rdreg_show ds s
  = Some ((Z.of_nat (length hex) + 1, hex ++ [nl]), called Call_switch_get_reg p s)
  /\ 1 <= Z.of_nat (length hex) <= 2 * w
  /\ (Z.of_nat (length hex) = 2 * w <-> 16 ^ (2 * w - 1) <= v)
  /\ parse_digits 16 hex 0 = (v, []).
Proof.
  intros Hget Hres Hsize w v hex.
  assert (Hshow : rdreg_show ds s
    = Some ((Z.of_nat (length hex) + 1, hex ++ [nl]),
            called Call_switch_get_reg p s)).
  { unfold rdreg_show. rewrite Hget, Hres. cbn [fst snd].
    change (0 =? 0) with true. cbn [negb].
    assert (Hout : forall text : list ascii,
      Z.of_nat (length (text ++ [nl])) = Z.of_nat (length text) + 1).
    { intros text. rewrite length_app. simpl. lia. }
    subst hex v w. unfold printed_bytes.
    repeat (apply elem_of_cons in Hsize as [->|Hsize];
      [ rewrite (u8_small _) by lia; cbv beta iota zeta;
        rewrite Hout; unfold fmt_hhx, fmt_hx, fmt_x, fmt_llx, u8, u16, u32, u64;
        rewrite ?wrap_u_wrap_u by lia; reflexivity | ]).
    by apply elem_of_nil in Hsize. }
  assert (Hw : w ∈ [1; 2; 4; 8]).
  { subst w. unfold printed_bytes.
    repeat (apply elem_of_cons in Hsize as [->|Hsize];
            [apply list_elem_of_In; simpl; tauto|]).
    by apply elem_of_nil in Hsize. }
  clearbody w. clear Hsize Hres Hget.
  assert (Hw2 : 1 <= w <= 8).
  { repeat (apply elem_of_cons in Hw as [->|Hw]; [lia|]).
    by apply elem_of_nil in Hw. }
  assert (Hpow : 2 ^ (8 * w) = 16 ^ (2 * w)).
  { change 16 with (2 ^ 4). rewrite <- Z.pow_mul_r by lia. f_equal. lia. }
  assert (Hv : 0 <= v < 16 ^ (2 * w)).
  { subst v. rewrite <- Hpow. apply Z.mod_pos_bound.
    apply Z.pow_pos_nonneg; lia. }
  clearbody v.
  destruct (digits_16_length (Z.to_nat (2 * w)) v) as [Hbound Hexact].
  { lia. }
  { rewrite Z2Nat.id by lia. exact Hv. }
  rewrite Z2Nat.id in Hexact by lia.
  fold hex in Hbound, Hexact.
  split; [exact Hshow|]. split; [lia|]. split; [split|].
  - intros Heq. destruct Hexact as [Hex _].
    destruct Hex as [H1|Hlo]; [lia|lia|done].
  - intros Hlo. destruct Hexact as [_ Hex]. specialize (Hex (or_intror Hlo)). lia.
  - apply parse_digits_digits.
    assert (16 ^ (2 * w) <= 16 ^ 16) by (apply Z.pow_le_mono_r; lia).
    assert (16 ^ 16 = 2 ^ 64) by reflexivity. lia.
Qed.

End Writes.

(** C3 (as stated, refuted): the width 3 is not refused with -EINVAL.
    rdreg_store and wrreg_store call the driver with it; a driver that
    checks the width makes them return -EIO, a driver that does not makes
    rdreg_store return its [count]. *)
Lemma bad_width_reaches_driver :
  rdreg_store sw0 "0:10:3" 7 init_state
  = Some (- EIO, called (Call_switch_setup_get_reg 0 0x10 3) init_priv init_state)
  /\ fst <$> rdreg_store sw_lax "0:10:3" 7 init_state = Some 7
  /\ wrreg_store sw0 "0:10:3:ff" 10 init_state
     = Some (- EIO, called (Call_switch_set_reg 0 0x10 3 0xff) init_priv init_state).
Proof. repeat split; reflexivity. Qed.

(** Writes that are one field short, and a two-character spi_mutex
    write of length 3, are refused; a well-formed rdreg write with the
    width 3 reaches the driver. *)
Lemma malformed_write_rejected_witness :
  (length (sscanf "3" pvlan_fmt) <> 2%nat
   /\ pvlan_store (tree_ports sw0) "3" 2 init_state = Some (- EINVAL, init_state))
  /\ (length (sscanf "0:10" rdreg_fmt) <> 3%nat
      /\ rdreg_store sw0 "0:10" 5 init_state = Some (- EINVAL, init_state))
  /\ (length (sscanf "0:10:4" wrreg_fmt) <> 4%nat
      /\ wrreg_store sw0 "0:10:4" 7 init_state = Some (- EINVAL, init_state))
  /\ spi_mutex_store "10" 3 init_state = (- EINVAL, init_state)
  /\ rdreg_store sw0 "0:10:3" 7 init_state
     = Some (- EIO, called (Call_switch_setup_get_reg 0 0x10 3) init_priv init_state).
Proof.
  destruct (malformed_write_rejected (tree_ports sw0) sw0 "3" 2 init_state)
    as (Hpvlan & _).
  destruct (malformed_write_rejected (tree_ports sw0) sw0 "0:10" 5 init_state)
    as (_ & Hrdreg & _).
  destruct (malformed_write_rejected (tree_ports sw0) sw0 "0:10:4" 7 init_state)
    as (_ & _ & Hwrreg & _).
  destruct (malformed_write_rejected (tree_ports sw0) sw0 "10" 3 init_state)
    as (_ & _ & _ & Hspi & _).
  destruct (malformed_write_rejected (tree_ports sw0) sw0 "0:10:3" 7 init_state)
    as (_ & _ & _ & _ & Hwidth & _).
  assert (H1 : length (sscanf "3" pvlan_fmt) <> 2%nat) by (vm_compute; lia).
  assert (H2 : length (sscanf "0:10" rdreg_fmt) <> 3%nat) by (vm_compute; lia).
  assert (H3 : length (sscanf "0:10:4" wrreg_fmt) <> 4%nat) by (vm_compute; lia).
  split; [exact (conj H1 (Hpvlan H1))|].
  split; [exact (conj H2 (Hrdreg H2))|].
  split; [exact (conj H3 (Hwrreg H3))|].
  split; [apply Hspi; lia|].
  exact (Hwidth 0 0x10 3 b53_setup_get_reg eq_refl eq_refl).
Defined.

(** C4 (as stated, refuted): register 0x10 of page 0 holds 5; prepared
    with width 1 it reads as "5", one hexadecimal digit, not two. *)
Lemma rdreg_show_width_1_one_digit :
  (rdreg_store sw0 "0:10:1" 7 init_state
     ≫= λ r, fst <$> rdreg_show sw0 r.2)
  = Some (2, ["5"%char; nl]).
Proof. reflexivity. Qed.

(** Prepared with width 2, the same register reads as "5" as well:
    one digit, within the bound of four. *)
Lemma rdreg_show_hex_witness :
  let s1 := prepared_width_2 in
  rdreg_store sw0 "0:10:2" 7 init_state = Some (7, s1)
  /\ b53_get_reg (ds_priv s1) = ((0, 2, 5), ds_priv s1)
  /\ rdreg_show sw0 s1
     = Some ((2, ["5"%char; nl]), called Call_switch_get_reg (ds_priv s1) s1)
  /\ 1 <= Z.of_nat (length (digits 16 (5 mod 2 ^ (8 * 2)))) <= 2 * 2.
Proof.
  intros s1.
  assert (Hget : b53_get_reg (ds_priv s1) = ((0, 2, 5), ds_priv s1))
    by reflexivity.
  destruct (rdreg_show_hex sw0 s1 b53_get_reg 2 5 (ds_priv s1) eq_refl Hget)
    as (Hshow & Hbound & _).
  { apply list_elem_of_In. simpl. tauto. }
  split; [reflexivity|]. split; [exact Hget|]. split; [|exact Hbound].
  rewrite Hshow. reflexivity.
Defined.

(** Port 5, one master string and two switch strings in a buffer of 96
    bytes: the master's "rx_packets" stays, the switch's "rx_bytes"
    becomes "p05_rx_bytes", and the 31-character name loses its last
    three characters to the tag. *)
Lemma dsa_master_get_strings_prefix_witness :
  exists out,
    dsa_master_get_strings eth_ops None sw_strings 5 1 (replicate 96 0) = Some out
    /\ length out = 96%nat
    /\ gstring out 0 = gstring_of "rx_packets"
    /\ gstring out 1 = gstring_of "p05_rx_bytes"
    /\ gstring out 2 = gstring_of "p05_in_broadcast_packets_dropped".
Proof.
  destruct (dsa_master_get_strings_prefix eth_ops None sw_strings 5 1
              (replicate 96 0)
              (fun _ _ => put_strings ["rx_bytes"%string; "in_broadcast_packets_dropped_hw"%string])
              (fun _ _ => 2) ltac:(lia) eq_refl eq_refl ltac:(lia))
    as (out & Hout & Hlen & Hmaster & Hswitch & _).
  { vm_compute. lia. }
  { vm_compute. lia. }
  exists out. split; [exact Hout|]. split; [exact Hlen|].
  split; [|split].
  - exact Hmaster.
  - exact (Hswitch 0%nat ltac:(vm_compute; lia)).
  - exact (Hswitch 1%nat ltac:(vm_compute; lia)).
Defined.

End Master_props.

(* ===================================================================== *)
(** ** drivers/hwmon/mcp9902.c: further properties                       *)
(* ===================================================================== *)

Module Mcp9902_ext_props.
Import Mcp9902 Mcp9902_ext Fixtures.

(** *** The trace of a refresh *)

Lemma release_events suspended tr :
  spi_unlock suspended tr
  = tr ++ (if suspended then [] else [Usleep_range 100 200])
       ++ [Msleep 1; Spi_mutex_unlock].
Proof.
  unfold spi_unlock. destruct suspended; cbn [negb].
  - by rewrite <- app_assoc.
  - by rewrite <- !app_assoc.
Qed.

Lemma read_regs_trace chip st :
  (read_regs chip st).2
  = st.2 ++ ((fun i => I2c_read (regs_read i)) <$> all_regs).
Proof.
  unfold read_regs. generalize all_regs. intros l. revert st.
  induction l as [|i l IH]; intros st.
  - by rewrite app_nil_r.
  - cbn [foldl]. rewrite IH. unfold i2c_read. cbn [fst snd fmap list_fmap].
    by rewrite <- app_assoc.
Qed.

Lemma read_burst_trace chip suspended st :
  (read_burst chip suspended st).2 = st.2 ++ burst_trace suspended.
Proof.
  unfold read_burst.
  pose proof (read_regs_trace chip (st.1, spi_lock st.2)) as Htr.
  destruct (read_regs chip (st.1, spi_lock st.2)) as [d tr].
  cbn [fst snd] in *. subst tr. unfold i2c_read, spi_lock, burst_trace.
  cbn [fst snd]. rewrite release_events.
  by rewrite <- !app_assoc.
Qed.

Lemma iter_burst_trace chip suspended n st :
  (Nat.iter n (read_burst chip suspended) st).2
  = st.2 ++ concat (replicate n (burst_trace suspended)).
Proof.
  induction n as [|n IH].
  - by rewrite app_nil_r.
  - change (Nat.iter (S n) (read_burst chip suspended) st)
      with (read_burst chip suspended (Nat.iter n (read_burst chip suspended) st)).
    rewrite read_burst_trace, IH, <- app_assoc. f_equal.
    change (replicate (S n) (burst_trace suspended))
      with ([burst_trace suspended] ++ replicate n (burst_trace suspended)).
    rewrite concat_app. cbn [concat]. rewrite app_nil_r.
    clear. induction n as [|n IH]; [by rewrite app_nil_r|].
    cbn [replicate concat]. by rewrite <- app_assoc, IH.
Qed.

Lemma update_device_events jiffies chip suspended d tr :
  (mcp9902_update_device jiffies chip suspended (d, tr)).2
  = tr ++ [Update_lock]
       ++ (if refreshes jiffies d
           then concat (replicate 20 (burst_trace suspended)) else [])
       ++ [Update_unlock].
Proof.
  unfold mcp9902_update_device, refreshes. cbn [fst snd].
  destruct (time_after _ _ || negb _).
  - pose proof (iter_burst_trace chip suspended 20 (d, tr ++ [Update_lock])) as H.
    destruct (Nat.iter 20 _ _) as [d' tr']. cbn [fst snd] in *. subst tr'.
    by rewrite <- !app_assoc.
  - cbn [snd app]. by rewrite <- app_assoc.
Qed.

Lemma update_device_data jiffies chip suspended d tr :
  let d' := (mcp9902_update_device jiffies chip suspended (d, tr)).1 in
  if refreshes jiffies d
  then valid d' = true /\ last_updated d' = jiffies
  else d' = d.
Proof.
  unfold mcp9902_update_device, refreshes. cbn [fst snd].
  destruct (time_after _ _ || negb _); [|done].
  by destruct (Nat.iter 20 _ _) as [d' tr'].
Qed.

(** X1: a call of mcp9902_update_device on a fresh cache takes the
    update lock and nothing else: no bus transaction, the cache as it
    was. On a stale or invalid cache it runs exactly 20 read bursts, each
    of the 11 temperature registers and the status register under the
    clock mutex (240 reads), and leaves the cache valid and stamped with
    the current jiffies. *)
Theorem update_device_refresh (jiffies : Z) (chip : nat -> Z -> Z)
    (suspended : bool) (d : mcp9902_data) (tr : list event) :
  let r := mcp9902_update_device jiffies chip suspended (d, tr) in
  r.2 = tr ++ [Update_lock]
           ++ (if refreshes jiffies d
               then concat (replicate 20 (burst_trace suspended)) else [])
           ++ [Update_unlock]
  /\ length (List.filter is_i2c_read r.2)
     = (length (List.filter is_i2c_read tr)
        + (if refreshes jiffies d then 240 else 0))%nat
  /\ (if refreshes jiffies d
      then valid r.1 = true /\ last_updated r.1 = jiffies
      else r.1 = d).
Proof.
  intros r. subst r. split; [apply update_device_events|]. split.
  - rewrite update_device_events, !List.filter_app, !length_app.
    destruct (refreshes jiffies d), suspended; vm_compute length at 2 3 4; lia.
  - apply update_device_data.
Qed.

(** *** The staleness window *)

Lemma time_after_window now j :
  0 <= now < 2 ^ 64 -> 0 <= j < 2 ^ 64 ->
  time_after now (u64 (j + 1)) = true
  <-> 2 <= (now - j) mod 2 ^ 64 <= 2 ^ 63 + 1.
Proof.
  intros Hn Hj. unfold time_after, wrap_s, u64, wrap_u.
  rewrite Z.ltb_lt.
  change (2 ^ (64 - 1)) with 9223372036854775808.
  change (2 ^ 63) with 9223372036854775808.
  change (2 ^ 64) with 18446744073709551616 in *.
  Z.div_mod_to_equations. lia.
Qed.

(** X2: a valid cache is served as it is, without any bus transaction,
    when the call comes in the jiffy of the last refresh or in the next
    one, and is refreshed when the call comes 2 or more jiffies later
    (up to 2^63 + 1, jiffies being compared modulo 2^64 as
    time_after does). *)
Theorem update_device_window (now : Z) (chip : nat -> Z -> Z)
    (suspended : bool) (d : mcp9902_data) (tr : list event) :
  valid d = true ->
  0 <= now < 2 ^ 64 -> 0 <= last_updated d < 2 ^ 64 ->
  let age := (now - last_updated d) mod 2 ^ 64 in
  let r := mcp9902_update_device now chip suspended (d, tr) in
  (age <= 1 \/ 2 ^ 63 + 1 < age ->
   r = (d, tr ++ [Update_lock; Update_unlock]))
  /\ (2 <= age <= 2 ^ 63 + 1 ->
      valid r.1 = true /\ last_updated r.1 = now
      /\ r.2 = tr ++ [Update_lock]
                 ++ concat (replicate 20 (burst_trace suspended))
                 ++ [Update_unlock]).
Proof.
  intros Hvalid Hnow Hlast age r.
  pose proof (time_after_window now (last_updated d) Hnow Hlast) as Hwin.
  fold age in Hwin.
  pose proof (update_device_events now chip suspended d tr) as Hev.
  pose proof (update_device_data now chip suspended d tr) as Hdat.
  fold r in Hev, Hdat. cbv zeta in Hdat.
  unfold refreshes in *. rewrite Hvalid, orb_false_r in *.
  split.
  - intros Hage.
    destruct (time_after now _) eqn:E;
      [destruct Hwin as [Hw _]; specialize (Hw eq_refl); lia|].
    destruct r as [d' tr']. cbn [fst snd] in *. by subst.
  - intros Hage. apply Hwin in Hage. rewrite Hage in *.
    destruct Hdat as [Hv Hl]. done.
Qed.

(** A cache refreshed at jiffies 1000: a call at 1001 leaves it alone,
    a call at 1002 refreshes it. *)
Lemma update_device_window_witness :
  mcp9902_update_device 1001 chip_89_20 false (cached_data, [])
  = (cached_data, [Update_lock; Update_unlock])
  /\ last_updated (mcp9902_update_device 1002 chip_89_20 false (cached_data, [])).1
     = 1002.
Proof.
  destruct (update_device_window 1001 chip_89_20 false cached_data [] eq_refl)
    as [Hfresh _]; [vm_compute; split; congruence | vm_compute; split; congruence |].
  destruct (update_device_window 1002 chip_89_20 false cached_data [] eq_refl)
    as [_ Hstale]; [vm_compute; split; congruence | vm_compute; split; congruence |].
  split.
  - apply Hfresh. left. vm_compute. discriminate.
  - apply Hstale. vm_compute. split; discriminate.
Defined.

(** *** What a refresh loads *)

Lemma get_set_temp d i j v :
  length (temp d) = t_num_regs ->
  get_temp (set_temp d i v) j = if decide (j = i) then u8 v else get_temp d j.
Proof.
  intros Hlen. unfold get_temp, set_temp. cbn [temp].
  destruct (decide (j = i)) as [->|Hne].
  - rewrite list_lookup_insert_eq; [done|]. rewrite Hlen.
    destruct i; unfold t_num_regs; simpl; lia.
  - rewrite list_lookup_insert_ne; [done|].
    intros Heq. apply Hne. destruct i, j; simpl in Heq; congruence.
Qed.

Lemma read_regs_get chip c (l : list temp_index) st i :
  (forall t r, chip t r = c r) -> length (temp st.1) = t_num_regs ->
  get_temp
    (foldl (fun st i =>
              let '(v, tr) := i2c_read chip st.2 (regs_read i) in
              (set_temp st.1 i v, tr)) st l).1 i
  = if decide (i ∈ l) then u8 (c (regs_read i)) else get_temp st.1 i.
Proof.
  intros Hc. revert st. induction l as [|a l IH]; intros st Hlen.
  - cbn [foldl]. by rewrite decide_False by apply not_elem_of_nil.
  - cbn [foldl]. rewrite IH.
    2:{ unfold i2c_read. cbn [fst snd set_temp temp]. by rewrite length_insert. }
    unfold i2c_read. cbn [fst snd]. rewrite get_set_temp, Hc by done.
    destruct (decide (i ∈ l)) as [Hin|Hnin].
    + rewrite decide_True; [done|]. by apply list_elem_of_further.
    + destruct (decide (i = a)) as [->|Hne].
      * rewrite decide_True; [done|]. apply list_elem_of_here.
      * rewrite decide_False; [done|].
        intros [?|?]%elem_of_cons; done.
Qed.

Lemma read_burst_cache chip c suspended st :
  (forall t r, chip t r = c r) -> length (temp st.1) = t_num_regs ->
  (forall i, get_temp (read_burst chip suspended st).1 i = u8 (c (regs_read i)))
  /\ alarms (read_burst chip suspended st).1 = u8 (c MCP9902_REG_R_STATUS).
Proof.
  intros Hc Hlen. unfold read_burst.
  assert (H : forall i, get_temp (read_regs chip (st.1, spi_lock st.2)).1 i
                        = u8 (c (regs_read i))).
  { intros i. unfold read_regs. rewrite (read_regs_get chip c) by done.
    rewrite decide_True; [done|]. destruct i; set_solver. }
  destruct (read_regs chip (st.1, spi_lock st.2)) as [d tr].
  unfold i2c_read. cbn [fst snd set_alarms temp alarms] in *.
  by rewrite Hc.
Qed.

(** X3: when the chip answers every register with the same value
    throughout the refresh, a refresh leaves in every cache entry the
    low byte of what the chip answers for the read address of that
    entry, and in the alarms the low byte of the status register. *)
Theorem update_device_loads (jiffies : Z) (chip : nat -> Z -> Z) (c : Z -> Z)
    (suspended : bool) (d : mcp9902_data) (tr : list event) :
  wf_data d ->
  (forall t r, chip t r = c r) ->
  refreshes jiffies d = true ->
  let d' := (mcp9902_update_device jiffies chip suspended (d, tr)).1 in
  (forall i, get_temp d' i = u8 (c (regs_read i)))
  /\ alarms d' = u8 (c MCP9902_REG_R_STATUS)
  /\ wf_data d'.
Proof.
  intros Hwf Hc Href d'.
  assert (Hwf' : wf_data d')
    by apply (Mcp9902_props.wf_update_device jiffies chip suspended (d, tr) Hwf).
  split; [|split; [|exact Hwf']]; clear Hwf'; subst d';
    unfold mcp9902_update_device; unfold refreshes in Href;
    cbn [fst snd]; rewrite Href, Nat.iter_succ;
    pose proof (Mcp9902_props.wf_iter_burst chip suspended 19
                  (d, tr ++ [Update_lock]) Hwf) as [Hlen _];
    destruct (read_burst_cache chip c suspended _ Hc Hlen) as [Ht Ha];
    destruct (read_burst chip suspended _) as [d1 tr1];
    cbn [fst snd temp alarms] in *.
  - intros i. exact (Ht i).
  - exact Ha.
Qed.

(** From an empty cache, with the chip answering 89 and 0x20 for the
    local temperature: the cache holds 89, 0x20 and zeros. *)
Lemma update_device_loads_witness :
  wf_data fresh_data
  /\ refreshes 5 fresh_data = true
  /\ get_temp (mcp9902_update_device 5 chip_89_20 false (fresh_data, [])).1
       t_input1 = 89
  /\ get_temp (mcp9902_update_device 5 chip_89_20 false (fresh_data, [])).1
       t_input1_fraction = 0x20.
Proof.
  assert (Hwf : wf_data fresh_data).
  { split; [reflexivity|]. repeat constructor; lia. }
  destruct (update_device_loads 5 chip_89_20 (chip_89_20 0%nat) false
              fresh_data [] Hwf (fun _ _ => eq_refl) eq_refl) as (Hget & _ & _).
  split; [exact Hwf|]. split; [reflexivity|].
  split; [exact (Hget t_input1) | exact (Hget t_input1_fraction)].
Defined.

(** *** A threshold write *)

Lemma index_of_inj i j : index_of i = index_of j -> i = j.
Proof. destruct i, j; simpl; congruence. Qed.

Lemma index_of_lt i : (index_of i < t_num_regs)%nat.
Proof. destruct i; unfold t_num_regs; simpl; lia. Qed.

(** X4: a write that kstrtol rejects returns its error and changes
    nothing. A write that parses returns [count], replaces the one cache
    entry by the low byte of temp_to_reg of the value and sends that
    byte to the write address of the entry, in a single transaction
    under the update lock and the clock mutex; the other entries, the
    alarms, the validity and the time stamp of the cache stay. *)
Theorem temp_store_frame (kstrtol : string -> Z -> Z * Z) (suspended : bool)
    (i : temp_index) (buf : string) (count : Z) (d : mcp9902_data)
    (tr : list event) :
  wf_data d ->
  let r := temp_store kstrtol suspended i buf count (d, tr) in
  let err := (kstrtol buf 10).1 in
  let byte := u8 (temp_to_reg (int (kstrtol buf 10).2)) in
  if err =? 0 then
    r.1 = count
    /\ get_temp r.2.1 i = byte
    /\ (forall j, j <> i -> get_temp r.2.1 j = get_temp d j)
    /\ alarms r.2.1 = alarms d /\ valid r.2.1 = valid d
    /\ last_updated r.2.1 = last_updated d
    /\ r.2.2 = tr ++ [Update_lock; Spi_mutex_lock;
                      I2c_write (regs_write i) byte]
                  ++ (if suspended then [] else [Usleep_range 100 200])
                  ++ [Msleep 1; Spi_mutex_unlock; Update_unlock]
    /\ wf_data r.2.1
  else r = (err, (d, tr)).
Proof.
  intros Hwf r err byte. subst r err byte. unfold temp_store.
  destruct (kstrtol buf 10) as [err val]. cbn [fst snd].
  destruct (err =? 0); cbn [negb fst snd]; [|done].
  assert (Hget : get_temp (set_temp d i (temp_to_reg (int val))) i
                 = u8 (temp_to_reg (int val))).
  { unfold get_temp, set_temp. cbn [temp].
    rewrite list_lookup_insert_eq; [done|].
    destruct Hwf as [-> _]. apply index_of_lt. }
  rewrite Hget. repeat split; try done.
  - intros j Hne. unfold get_temp, set_temp. cbn [temp].
    rewrite list_lookup_insert_ne; [done|].
    intros Heq. apply Hne. symmetry. by apply index_of_inj.
  - rewrite release_events. unfold spi_lock.
    rewrite <- !app_assoc. cbn [app]. done.
  - by apply (Mcp9902_props.wf_set_temp d i _ Hwf).
  - by apply (Mcp9902_props.wf_set_temp d i _ Hwf).
Qed.

(** temp1_min written with "25000" on the cache of the fixture. *)
Lemma temp_store_frame_witness :
  wf_data cached_data
  /\ (temp_store kstrtol_25000 false t_low1 "25000" 6 (cached_data, [])).1 = 6
  /\ (temp_store kstrtol_25000 false t_low1 "25000" 6 (cached_data, [])).2.2
     = [Update_lock; Spi_mutex_lock; I2c_write MCP9902_REG_W_LOCAL_LOW 25;
        Usleep_range 100 200; Msleep 1; Spi_mutex_unlock; Update_unlock]
  /\ temp_store kstrtol_25000 false t_low1 "abc" 4 (cached_data, [])
     = (- EINVAL, (cached_data, [])).
Proof.
  assert (Hwf : wf_data cached_data).
  { split; [reflexivity|]. repeat constructor; lia. }
  pose proof (temp_store_frame kstrtol_25000 false t_low1 "25000" 6
                cached_data [] Hwf) as Hok.
  pose proof (temp_store_frame kstrtol_25000 false t_low1 "abc" 4
                cached_data [] Hwf) as Hbad.
  cbv zeta in Hok, Hbad.
  change ((kstrtol_25000 "25000" 10).1 =? 0) with true in Hok.
  change ((kstrtol_25000 "abc" 10).1 =? 0) with false in Hbad.
  destruct Hok as (Hret & _ & _ & _ & _ & _ & Htr & _).
  split; [exact Hwf|]. split; [exact Hret|]. split; [|exact Hbad].
  rewrite Htr. reflexivity.
Defined.

(** *** The clock arbiter *)

(** X5: every entry point of the driver that touches the bus (refresh,
    threshold write, detection, probe) takes the clock mutex before its
    first transaction, never takes it twice, gives it back before it
    returns, and sleeps at least one millisecond right before every
    release. *)
Theorem bus_sessions_bracketed (chip : nat -> Z -> Z) (suspended : bool)
    (e : entry) :
  arbiter_run false (entry_trace chip suspended e) = Some false
  /\ release_settled false (entry_trace chip suspended e) = true.
Proof.
  destruct e as [jiffies d | kstrtol i buf count d | functionality
                | alloc_ok register_ret]; unfold entry_trace.
  - rewrite update_device_events.
    destruct (refreshes jiffies d), suspended; vm_compute; split; reflexivity.
  - unfold temp_store. destruct (kstrtol buf 10) as [err val].
    destruct (err =? 0); cbn [negb fst snd]; [|split; reflexivity].
    rewrite release_events. destruct suspended; split; reflexivity.
  - unfold mcp9902_detect.
    destruct functionality; cbn [negb]; [|split; reflexivity].
    unfold i2c_read. rewrite release_events.
    destruct (negb _ || negb _), suspended; split; reflexivity.
  - unfold mcp9902_probe, mcp9902_init_client.
    destruct alloc_ok; cbn [negb snd]; [|split; reflexivity].
    rewrite release_events. destruct suspended; split; reflexivity.
Qed.

(** *** Decoding *)

(** X6: on register bytes temp_from_reg gives a multiple of 125 between
    -64000 and 191875, grows with the raw byte, and determines the raw
    byte and the top three bits of the fraction byte: two readings are
    equal only when both agree. *)
Theorem temp_from_reg_resolution (raw f raw' f' : Z) :
  0 <= raw < 256 -> 0 <= f < 256 -> 0 <= raw' < 256 -> 0 <= f' < 256 ->
  -64000 <= temp_from_reg raw f <= 191875
  /\ temp_from_reg raw f mod 125 = 0
  /\ (raw < raw' -> temp_from_reg raw f < temp_from_reg raw' f')
  /\ (temp_from_reg raw f = temp_from_reg raw' f' ->
      raw = raw' /\ Z.shiftr f 5 = Z.shiftr f' 5).
Proof.
  intros Hr Hf Hr' Hf'.
  rewrite !Mcp9902_props.temp_from_reg_bytes by done.
  pose proof (top3_range f Hf). pose proof (top3_range f' Hf').
  set (a := Z.shiftr f 5) in *. set (a' := Z.shiftr f' 5) in *.
  split; [lia|]. split; [|split; [lia|lia]].
  replace ((raw - 64) * 1000 + a * 125) with (((raw - 64) * 8 + a) * 125) by lia.
  apply Z.mod_mul. lia.
Qed.

Lemma temp_from_reg_resolution_witness :
  temp_from_reg 89 0x20 mod 125 = 0
  /\ temp_from_reg 89 0x20 < temp_from_reg 90 0.
Proof.
  destruct (temp_from_reg_resolution 89 0x20 90 0) as (_ & Hmod & Hlt & _);
    [lia | lia | lia | lia |].
  split; [exact Hmod | apply Hlt; lia].
Defined.

(** *** Alarm bits *)

Lemma land_1_testbit a n :
  0 <= n -> Z.land (Z.shiftr a n) 1 = Z.b2z (Z.testbit a n).
Proof.
  intros Hn. change 1 with (Z.ones 1). rewrite Z.land_ones by lia.
  change (2 ^ 1) with 2. rewrite <- Z.bit0_mod, Z.shiftr_spec by lia.
  done.
Qed.

(** X7: alarm_show prints "1" when bit [bitnr] of the cached status byte
    is set and "0" when it is clear, followed by a newline. *)
Theorem alarm_show_bit (jiffies : Z) (chip : nat -> Z -> Z) (suspended : bool)
    (bitnr : Z) (d : mcp9902_data) (tr : list event) :
  0 <= bitnr ->
  let r := alarm_show jiffies chip suspended bitnr (d, tr) in
  r.1 = [if Z.testbit (alarms r.2.1) bitnr then "1"%char else "0"%char; nl].
Proof.
  intros Hn r. subst r. unfold alarm_show. cbn [fst snd].
  rewrite land_1_testbit by done.
  by destruct (Z.testbit _ bitnr).
Qed.

(** The status byte 0x41 has bit 6 (temp1_max_alarm) set. *)
Lemma alarm_show_bit_witness :
  (alarm_show 5 (fun _ reg => if reg =? MCP9902_REG_R_STATUS then 0x41 else 0)
     false 6 (fresh_data, [])).1 = ["1"%char; nl].
Proof.
  rewrite (alarm_show_bit 5 _ false 6 fresh_data []) by lia.
  vm_compute. reflexivity.
Defined.

(** *** Detection and probe *)

(** X8: mcp9902_detect answers 0 exactly when the adapter has the byte
    data functionality and the low bytes of the two answers are 0x5D
    (manufacturer) and 0x04 (chip), and -ENODEV otherwise; the type name
    is filled in only on success; without the functionality the bus is
    not touched, with it the two identification registers are read once
    each, in that order. *)
Theorem mcp9902_detect_accepts (functionality : bool) (chip : nat -> Z -> Z)
    (suspended : bool) (tr : list event) :
  let r := mcp9902_detect functionality chip suspended tr in
  let man := chip (S (length tr)) MCP9902_REG_R_MAN_ID in
  let chp := chip (S (S (length tr))) MCP9902_REG_R_CHIP_ID in
  let ok := functionality && (man mod 256 =? 0x5D) && (chp mod 256 =? 0x04) in
  r.1 = (if ok then (0, Some "mcp9902"%string) else (- ENODEV, None))
  /\ r.2 = if functionality
           then tr ++ [Spi_mutex_lock; I2c_read MCP9902_REG_R_MAN_ID;
                       I2c_read MCP9902_REG_R_CHIP_ID]
                   ++ (if suspended then [] else [Usleep_range 100 200])
                   ++ [Msleep 1; Spi_mutex_unlock]
           else tr.
Proof.
  intros r man chp ok. subst r ok. unfold mcp9902_detect.
  destruct functionality; cbn [negb andb]; [|done].
  unfold i2c_read, spi_lock. rewrite release_events.
  rewrite !length_app. cbn [length].
  replace (length tr + 1)%nat with (S (length tr)) by lia.
  replace (S (length tr) + 1)%nat with (S (S (length tr))) by lia.
  fold man chp. unfold u8, wrap_u. change (2 ^ 8) with 256.
  destruct (man mod 256 =? 93), (chp mod 256 =? 4); cbn [negb orb andb fst snd];
    (split; [done|]); by rewrite <- !app_assoc.
Qed.

(** X9: mcp9902_probe without memory returns -ENOMEM and does nothing.
    Otherwise it sets the conversion rate register to 5 and the
    configuration register to 0x9F under the clock mutex before the
    registration, whatever the registration then returns, and hands out
    a cache that is invalid: the first read after probe goes to the bus
    at any value of jiffies. *)
Theorem mcp9902_probe_starts_invalid (alloc_ok : bool) (register_ret : Z)
    (suspended : bool) (tr : list event) (jiffies : Z)
    (chip : nat -> Z -> Z) :
  mcp9902_probe alloc_ok register_ret suspended tr
  = (if alloc_ok
     then (register_ret, Some fresh_data,
           tr ++ [Spi_mutex_lock; I2c_write MCP9902_REG_W_CONVRATE 5;
                  I2c_write MCP9902_REG_W_CONFIG 0x9F]
              ++ (if suspended then [] else [Usleep_range 100 200])
              ++ [Msleep 1; Spi_mutex_unlock])
     else (- ENOMEM, None, tr))
  /\ refreshes jiffies fresh_data = true
  /\ length (List.filter is_i2c_read
       (mcp9902_update_device jiffies chip suspended (fresh_data, [])).2)
     = 240%nat.
Proof.
  split; [|split].
  - unfold mcp9902_probe, mcp9902_init_client, spi_lock.
    destruct alloc_ok; cbn [negb]; [|done].
    rewrite release_events. by rewrite <- !app_assoc.
  - unfold refreshes. cbn [valid fresh_data negb]. apply orb_true_r.
  - rewrite update_device_events.
    assert (refreshes jiffies fresh_data = true) as ->
      by (unfold refreshes; cbn [valid fresh_data negb]; apply orb_true_r).
    destruct suspended; vm_compute; reflexivity.
Qed.

End Mcp9902_ext_props.

(* ===================================================================== *)
(** ** net/dsa/master.c: further properties                              *)
(* ===================================================================== *)

Module Master_ext_props.
Import Master Master_ext Fixtures.

Section Handlers.
Context {priv : Type}.
Implicit Types (s : state priv) (ports : list (dsa_port priv))
  (ds : dsa_switch priv).

(** *** spi_mutex *)

(** X10: a write to spi_mutex is accepted only when its length is 2 and
    its text scans as the number 0 or 1; it then returns the length,
    sets the flag so that a read shows the digit written, and takes the
    clock mutex and force-releases it around the change. Every other
    write returns -EINVAL and changes nothing. *)
Theorem spi_mutex_store_show (buf : string) (count : Z) s :
  let r := spi_mutex_store buf count s in
  match sscanf buf [Field Conv_d] with
  | [v] =>
      if (count =? 2) && ((v =? 0) || (v =? 1)) then
        r.1 = count
        /\ spi_mutex_show r.2 = [if v =? 0 then "0"%char else "1"%char; nl]
        /\ calls r.2 = calls s ++ [Call_spi_mutex_lock; Call_spi_mutex_force_unlock]
        /\ tag_ops r.2 = tag_ops s /\ refcount r.2 = refcount s
        /\ ds_priv r.2 = ds_priv s
      else r = (- EINVAL, s)
  | _ => r = (- EINVAL, s)
  end.
Proof.
  intros r. subst r. unfold spi_mutex_store.
  destruct (sscanf buf [Field Conv_d]) as [|v [|? ?]];
    destruct (count =? 2); cbn [negb andb]; try done.
  destruct (Z.eqb_spec v 0) as [->|H0]; cbn [negb andb orb].
  - repeat split; simpl; by rewrite <- ?app_assoc.
  - destruct (Z.eqb_spec v 1) as [->|H1]; cbn [negb]; [|done].
    repeat split; simpl; by rewrite <- ?app_assoc.
Qed.

(** *** pvlan_store *)

Lemma pvlan_store_ports_outcomes ports index value count s r s' :
  pvlan_store_ports ports index value count s = Some (r, s') ->
  (s' = s /\ (r = - EINVAL \/ r = - EOPNOTSUPP))
  \/ (r = count
      /\ (exists dp, dp ∈ ports /\ used_port index dp)
      /\ calls s' = calls s ++ [Call_port_change_pvlan index value]
      /\ tag_ops s' = tag_ops s /\ refcount s' = refcount s
      /\ clock_short s' = clock_short s).
Proof.
  induction ports as [|dp ports IH]; simpl.
  - intros [= <- <-]. left. split; [done|by left].
  - destruct ((dp_index dp =? index) && negb (is_unused (dp_type dp))) eqn:E.
    + apply andb_true_iff in E as [Hi Hu].
      apply Z.eqb_eq in Hi. apply negb_true_iff in Hu.
      destruct (port_get_pvlan _) as [getter|].
      * destruct (port_change_pvlan _) as [change|]; [|done].
        destruct (change _ _ _) as [ret pr]. intros [= <- <-].
        right. split; [done|]. split; [|done].
        exists dp. split; [apply list_elem_of_here|done].
      * intros [= <- <-]. left. split; [done|by right].
    + intros H. destruct (IH H) as [?|(? & (dp' & Hin & Hused) & ?)]; [by left|].
      right. split; [done|]. split; [|done].
      exists dp'. split; [by apply list_elem_of_further|done].
Qed.

(** X11: when pvlan_store returns, either it changed nothing and the
    result is -EINVAL or -EOPNOTSUPP, or the result is [count], the text
    scanned as an index and a value, the tree has a port with that index
    that is not unused, and exactly one call of port_change_pvlan, with
    that index and value, was made; the tag protocol, the reference
    counts and the clock-short flag are never touched. *)
Theorem pvlan_store_outcomes ports (buf : string) (count r : Z) s s' :
  pvlan_store ports buf count s = Some (r, s') ->
  (s' = s /\ (r = - EINVAL \/ r = - EOPNOTSUPP))
  \/ (r = count
      /\ exists index value,
           sscanf buf pvlan_fmt = [index; value]
           /\ (exists dp, dp ∈ ports /\ used_port index dp)
           /\ calls s' = calls s ++ [Call_port_change_pvlan index value]
           /\ tag_ops s' = tag_ops s /\ refcount s' = refcount s
           /\ clock_short s' = clock_short s).
Proof.
  unfold pvlan_store.
  destruct (sscanf buf pvlan_fmt) as [|index [|value [|? ?]]] eqn:E;
    try (intros [= <- <-]; left; split; [done|by left]).
  intros H. apply pvlan_store_ports_outcomes in H as [?|(? & ?)]; [by left|].
  right. split; [done|]. by exists index, value.
Qed.

(** *** rdreg_show *)

(** X12: whatever the driver answers, rdreg_show either returns -EIO
    with nothing printed (the driver failed, or the width is not 1, 2, 4,
    6 or 8), or returns the length of a text of 2 to 17 characters that
    ends in a newline; the driver is asked exactly once. *)
Theorem rdreg_show_outcomes ds s (get : priv -> (Z * Z * Z) * priv) :
  switch_get_reg (ds_ops ds) = Some get ->
  exists ret text,
    rdreg_show ds s
    = Some ((ret, text), called Call_switch_get_reg (get (ds_priv s)).2 s)
    /\ ((ret = - EIO /\ text = [])
        \/ (ret = Z.of_nat (length text) /\ 2 <= ret <= 17
            /\ last text = Some nl)).
Proof.
  intros Hget. unfold rdreg_show. rewrite Hget.
  destruct (get (ds_priv s)) as [[[ret0 size] value] p]. cbn [fst snd].
  destruct (ret0 =? 0); cbn [negb]; [|eexists _, _; split; [done|by left]].
  assert (Hdig : forall v, 0 <= v < 2 ^ 64 ->
            (1 <= length (digits 16 v) <= 16)%nat).
  { intros v Hv. apply (digits_16_length 16 v); [lia|].
    change (16 ^ Z.of_nat 16) with (2 ^ 64). done. }
  assert (Hout : forall v, 0 <= v < 2 ^ 64 ->
    Z.of_nat (length (digits 16 v ++ [nl])) = Z.of_nat (length (digits 16 v ++ [nl]))
    /\ 2 <= Z.of_nat (length (digits 16 v ++ [nl])) <= 17
    /\ last (digits 16 v ++ [nl]) = Some nl).
  { intros v Hv. specialize (Hdig v Hv). rewrite length_app, last_snoc.
    cbn [length]. repeat split; lia. }
  assert (H8 : forall x, 0 <= u8 x < 2 ^ 64).
  { intros x. pose proof (u8_range x). lia. }
  assert (H16 : forall x, 0 <= u16 x < 2 ^ 64).
  { intros x. unfold u16, wrap_u.
    pose proof (Z.mod_pos_bound x (2 ^ 16) ltac:(lia)). lia. }
  assert (H32 : forall x, 0 <= u32 x < 2 ^ 64).
  { intros x. unfold u32, wrap_u.
    pose proof (Z.mod_pos_bound x (2 ^ 32) ltac:(lia)). lia. }
  assert (H64 : forall x, 0 <= u64 x < 2 ^ 64).
  { intros x. unfold u64, wrap_u. apply Z.mod_pos_bound. lia. }
  generalize (u8 size). intros sz.
  unfold fmt_hhx, fmt_hx, fmt_x, fmt_llx.
  repeat match goal with
         | |- context [match ?x with _ => _ end] => is_var x; destruct x
         end;
    eexists _, _; (split; [reflexivity|]);
    first [ by left | right; apply Hout; auto ].
Qed.

(** *** tagging_imp_store *)

(** X13: tagging_imp_store returns the error of the lookup, with
    nothing changed, when the name is not that of an available tag
    driver; when the switch driver has no change_tag_protocol hook it
    returns -EOPNOTSUPP and calls nothing, but the reference that the
    lookup took stays: the count of the tag driver is one higher. *)
Theorem tagging_imp_store_errors (drivers : list dsa_tag_driver) ds
    (buf : string) (count : Z) s :
  let r := tagging_imp_store drivers ds buf count s in
  match (dsa_find_tagger_by_name drivers buf s).1 with
  | inl err => r = (err, s)
  | inr t =>
      change_tag_protocol (ds_ops ds) = None ->
      r.1 = - EOPNOTSUPP /\ calls r.2 = calls s /\ ds_priv r.2 = ds_priv s
      /\ tag_ops r.2 = tag_ops s
      /\ refs r.2 t = refs s t + 1
      /\ (forall p, p <> t -> refs r.2 p = refs s p)
  end.
Proof.
  intros r. subst r. unfold tagging_imp_store, dsa_find_tagger_by_name.
  destruct (lookup_by_name drivers _ 0) as [[t drv]|]; [|done].
  destruct (available drv); [|done]. cbn [fst snd].
  intros ->. cbn [fst snd]. repeat split.
  - rewrite (Master_props.refs_add_ref s t 1 t). by rewrite decide_True.
  - intros p Hne. rewrite (Master_props.refs_add_ref s t 1 p).
    rewrite decide_False by done. lia.
Qed.

End Handlers.

(** The fixture "none" is registered but not available; "brcm-prepend"
    is, and the bare switch driver has no hook. *)
Lemma tagging_imp_store_errors_witness :
  tagging_imp_store tag_drivers sw_bare "none" 5 init_state
  = (- ENOPROTOOPT, init_state)
  /\ (tagging_imp_store tag_drivers sw_bare "brcm-prepend" 13 init_state).1
     = - EOPNOTSUPP
  /\ refs (tagging_imp_store tag_drivers sw_bare "brcm-prepend" 13 init_state).2
       1%nat = 1.
Proof.
  pose proof (tagging_imp_store_errors tag_drivers sw_bare "none" 5 init_state)
    as Hnone.
  pose proof (tagging_imp_store_errors tag_drivers sw_bare "brcm-prepend" 13
                init_state) as Hbare.
  cbv zeta in Hnone, Hbare.
  change ((dsa_find_tagger_by_name tag_drivers "none" init_state).1)
    with (@inl Z nat (- ENOPROTOOPT)) in Hnone.
  change ((dsa_find_tagger_by_name tag_drivers "brcm-prepend" init_state).1)
    with (@inr Z nat 1%nat) in Hbare.
  cbv beta iota in Hnone, Hbare.
  destruct (Hbare eq_refl) as (Hret & _ & _ & _ & Hrefs & _).
  split; [exact Hnone|]. split; [exact Hret|].
  rewrite Hrefs. reflexivity.
Defined.

(** A write of "3:0a5" on the fixture tree. *)
Lemma pvlan_store_outcomes_witness :
  exists s',
    pvlan_store (tree_ports sw0) "3:0a5" 6 init_state = Some (6, s')
    /\ calls s' = calls init_state ++ [Call_port_change_pvlan 3 0x0A5]
    /\ refcount s' = refcount init_state.
Proof.
  destruct (pvlan_store (tree_ports sw0) "3:0a5" 6 init_state)
    as [[r s']|] eqn:E; [|discriminate].
  assert (Hr : r = 6) by (vm_compute in E; congruence).
  subst r. exists s'. split; [done|].
  destruct (pvlan_store_outcomes _ _ _ _ _ _ E)
    as [[_ [H|H]]|(_ & index & value & Hscan & _ & Hcalls & _ & Hrefs & _)];
    [vm_compute in H; discriminate | vm_compute in H; discriminate |].
  assert (index = 3 /\ value = 0x0A5) as [-> ->]
    by (vm_compute in Hscan; split; congruence).
  split; [exact Hcalls | exact Hrefs].
Defined.

(** The fixture driver, prepared for width 2. *)
Lemma rdreg_show_outcomes_witness :
  exists ret text,
    rdreg_show sw0 prepared_width_2
    = Some ((ret, text),
            called Call_switch_get_reg (b53_get_reg (ds_priv prepared_width_2)).2
              prepared_width_2)
    /\ ((ret = - EIO /\ text = [])
        \/ (ret = Z.of_nat (length text) /\ 2 <= ret <= 17
            /\ last text = Some nl)).
Proof. exact (rdreg_show_outcomes sw0 prepared_width_2 b53_get_reg eq_refl). Defined.

Section Tagging.
Context {priv : Type}.
Implicit Types (s : state priv).

Lemma lookup_by_name_found (drivers : list dsa_tag_driver) buf pos t drv :
  lookup_by_name drivers buf pos = Some (t, drv) ->
  (pos <= t)%nat /\ drivers !! (t - pos)%nat = Some drv
  /\ sysfs_streq buf (list_ascii_of_string (name (ops drv))) = true.
Proof.
  revert pos. induction drivers as [|d drivers IH]; intros pos; [done|].
  cbn [lookup_by_name].
  destruct (sysfs_streq buf (list_ascii_of_string (name (ops d)))) eqn:E.
  - intros H. simplify_eq. rewrite Nat.sub_diag. by repeat split.
  - intros H. destruct (IH _ H) as (Hle & Hlook & Hstr).
    split; [lia|]. split; [|done].
    replace (t - pos)%nat with (S (t - S pos)) by lia. done.
Qed.

(** X14: after a write to tagging_cpu that succeeds (the tagger is
    already active, or the tree-wide change went through), a read of
    tagging_cpu shows the registered name of the tag driver that the
    written text named, up to one trailing newline of the text; after a
    write that fails, a read shows what it showed before. *)
Theorem tagging_cpu_store_show (drivers : list dsa_tag_driver)
    (tree_notify : nat -> Z) (buf : string) (count : Z) s :
  let r := tagging_cpu_store drivers tree_notify buf count s in
  match (dsa_find_tagger_by_name drivers buf s).1 with
  | inl _ => tagging_cpu_show drivers r.2 = tagging_cpu_show drivers s
  | inr Q =>
      if (Q =? tag_ops s)%nat || (tree_notify Q =? 0) then
        exists drv,
          drivers !! Q = Some drv
          /\ tagging_cpu_show drivers r.2
             = list_ascii_of_string (name (ops drv)) ++ [nl]
          /\ sysfs_streq (list_ascii_of_string buf)
               (list_ascii_of_string (name (ops drv))) = true
      else tagging_cpu_show drivers r.2 = tagging_cpu_show drivers s
  end.
Proof.
  intros r. subst r. unfold tagging_cpu_store, dsa_find_tagger_by_name.
  destruct (lookup_by_name drivers _ 0) as [[Q drv]|] eqn:El; [|done].
  apply lookup_by_name_found in El as (_ & Hlook & Hstr).
  rewrite Nat.sub_0_r in Hlook.
  destruct (available drv); [|done]. cbn [fst snd].
  destruct (Nat.eqb_spec Q (tag_ops s)) as [->|Hne]; cbn [orb].
  - exists drv. split; [done|]. split; [|done].
    unfold tagging_cpu_show, dsa_tag_protocol_to_str. cbn [fst snd].
    unfold dsa_tag_driver_put. rewrite !Master_props.tag_ops_add_ref.
    by rewrite Hlook.
  - unfold dsa_tree_change_tag_proto. cbv zeta.
    destruct (tree_notify Q =? 0) eqn:E0; cbn [negb fst snd].
    + change (0 =? 0) with true. cbn [negb fst snd].
      exists drv. split; [done|]. split; [|done].
      unfold tagging_cpu_show, dsa_tag_protocol_to_str, dsa_tag_driver_put.
      rewrite Master_props.tag_ops_add_ref. cbn [tag_ops set_tag_ops].
      by rewrite Hlook.
    + rewrite E0. cbn [negb fst snd].
      unfold tagging_cpu_show, dsa_tag_driver_put.
      by rewrite !Master_props.tag_ops_add_ref.
Qed.

(** *** The string count and the strings *)

(** X15: when the master has a get_strings hook whenever it has a
    get_sset_count hook, the count that dsa_master_get_sset_count
    announces is the number of master strings that
    dsa_master_get_strings skips plus the switch's count, so the
    switch's strings end exactly at the announced count. A master with
    get_sset_count but without get_strings breaks this: its strings are
    counted, but the switch's strings are written from offset 0. *)
Theorem sset_count_matches_strings (ops : ethtool_ops)
    (phydev : option phy_device) (ds : dsa_switch priv) (port sset : Z)
    (data : list Z) (cnt : Z -> Z -> Z) :
  ds_get_sset_count (ds_ops ds) = Some cnt ->
  let mcount := (master_strings ops phydev sset data).2 in
  let total := dsa_master_get_sset_count ops phydev ds port sset in
  0 <= mcount
  /\ ((is_Some (get_sset_count ops) -> is_Some (get_strings ops)) ->
      total = int (mcount + cnt port sset))
  /\ (forall c, phydev = None -> get_sset_count ops = Some c ->
        get_strings ops = None ->
        mcount = 0
        /\ total = int ((if c sset <? 0 then 0 else c sset) + cnt port sset)).
Proof.
  intros Hcnt mcount total. subst mcount total.
  unfold dsa_master_get_sset_count, master_strings. rewrite Hcnt.
  split; [|split].
  - destruct phydev as [phy|];
      [destruct ((sset =? ETH_SS_PHY_STATS) && negb _);
         [destruct (Z.ltb_spec (phy_ethtool_get_sset_count phy) 0); cbn; lia|]|];
      destruct (get_sset_count ops) as [c|], (get_strings ops) as [g|];
      cbn [snd]; try lia; destruct (Z.ltb_spec (c sset) 0); lia.
  - intros Hboth.
    destruct phydev as [phy|];
      [destruct ((sset =? ETH_SS_PHY_STATS) && negb _);
         [by destruct (phy_ethtool_get_sset_count phy <? 0)|]|];
      destruct (get_sset_count ops) as [c|], (get_strings ops) as [g|];
      cbn [snd]; try done;
      destruct (Hboth (mk_is_Some _ _ eq_refl)) as [? [=]].
  - intros c -> Hc Hs. rewrite Hc, Hs. cbn [snd]. done.
Qed.

End Tagging.

(** The fixture master has both hooks and one string, the fixture switch
    two: the count is 3. *)
Lemma sset_count_matches_strings_witness :
  dsa_master_get_sset_count eth_ops None sw_strings 5 1 = 3.
Proof.
  destruct (sset_count_matches_strings eth_ops None sw_strings 5 1
              (replicate 96 0) (fun _ _ => 2) eq_refl) as (_ & Hboth & _).
  rewrite Hboth; [reflexivity|]. intros _. by eexists.
Defined.

(** *** Setup and teardown *)

Lemma promiscuity_delta_app l1 l2 :
  promiscuity_delta (l1 ++ l2) = promiscuity_delta l1 + promiscuity_delta l2.
Proof.
  induction l1 as [|[] l1 IH]; cbn [app promiscuity_delta]; lia.
Qed.

Lemma dsa_master_setup_ret (overhead : Z) (promisc alloc_ok : bool)
    (sysfs_ret : Z) (m : master_dev) :
  (dsa_master_setup overhead promisc alloc_ok sysfs_ret m).1
  = if alloc_ok then sysfs_ret else - ENOMEM.
Proof.
  unfold dsa_master_setup, dsa_master_ethtool_setup.
  destruct alloc_ok; cbn [negb].
  - change (0 =? 0) with true. cbn [negb].
    by destruct (Z.eqb_spec sysfs_ret 0) as [->|Hne].
  - change (- ENOMEM =? 0) with false. done.
Qed.

(** X16: dsa_master_setup fails exactly when the allocation of the
    ethtool table fails (-ENOMEM) or sysfs_create_group fails (its
    error); a failure of dev_set_mtu does not make it fail. After a
    failure the master has the ethtool table it had before, the
    promiscuity requests cancel out, and the dsa netdev_ops are not
    installed by this call; but dev->dsa_ptr stays set and the MTU that
    was raised for the tag overhead is not put back. *)
Theorem dsa_master_setup_failure (overhead : Z) (promisc alloc_ok : bool)
    (sysfs_ret : Z) (m : master_dev) :
  let r := dsa_master_setup overhead promisc alloc_ok sysfs_ret m in
  r.1 = (if alloc_ok then sysfs_ret else - ENOMEM)
  /\ (r.1 <> 0 ->
      ethtool_ops_ptr r.2 = ethtool_ops_ptr m
      /\ promiscuity_delta (klog r.2) = promiscuity_delta (klog m)
      /\ netdev_ops r.2 = (if alloc_ok then false else netdev_ops m)
      /\ dsa_ptr r.2 = true
      /\ List.filter (fun c => match c with K_dev_set_mtu _ => true | _ => false end)
           (klog r.2)
         = List.filter (fun c => match c with K_dev_set_mtu _ => true | _ => false end)
             (klog m)
           ++ [K_dev_set_mtu (int (ETH_DATA_LEN + overhead))]).
Proof.
  intros r. subst r. unfold dsa_master_setup, dsa_master_ethtool_setup.
  destruct alloc_ok; cbn [negb].
  - change (0 =? 0) with true. cbn [negb].
    destruct (Z.eqb_spec sysfs_ret 0) as [->|Hne]; cbn [negb fst snd];
      (split; [done|]); [done|]. intros _.
    destruct promisc; cbn; rewrite ?promiscuity_delta_app, ?List.filter_app;
      cbn; rewrite ?app_nil_r; repeat split; lia.
  - change (- ENOMEM =? 0) with false. cbn [negb fst snd].
    split; [done|]. intros _.
    destruct promisc; cbn; rewrite ?promiscuity_delta_app, ?List.filter_app;
      cbn; rewrite ?app_nil_r; repeat split; lia.
Qed.

Lemma dsa_master_setup_failure_witness :
  let r := dsa_master_setup 4 true true (- ENOMEM) (plain_master eth_ops) in
  r.1 = - ENOMEM
  /\ ethtool_ops_ptr r.2 = Some (Table_driver eth_ops)
  /\ promiscuity_delta (klog r.2) = 0
  /\ dsa_ptr r.2 = true.
Proof.
  intros r.
  destruct (dsa_master_setup_failure 4 true true (- ENOMEM) (plain_master eth_ops))
    as [Hret Hfail].
  fold r in Hret, Hfail.
  destruct Hfail as (Hops & Hdelta & _ & Hptr & _).
  { rewrite Hret. vm_compute. discriminate. }
  split; [exact Hret|]. split; [exact Hops|]. split; [exact Hdelta|exact Hptr].
Defined.

(** X17: a setup that succeeds followed by a teardown gives the master
    back the ethtool table it had, clears cpu_dp's saved table and
    netdev_ops and dev->dsa_ptr, removes the sysfs group it created, and
    sets the MTU to ETH_DATA_LEN. Each of the two calls reads
    promisc_on_master of the tag protocol that is current when it runs
    ([promisc] at setup, [promisc'] at teardown): the promiscuity
    requests are +1 and -1 in a pair, or none, exactly when the two
    agree; after a change from a protocol that wants promiscuity to one
    that does not the +1 is never taken back, and after the opposite
    change a -1 is asked for that no +1 preceded. *)
Theorem dsa_master_setup_teardown (overhead : Z)
    (promisc promisc' alloc_ok : bool) (sysfs_ret : Z) (m : master_dev) :
  let r := dsa_master_setup overhead promisc alloc_ok sysfs_ret m in
  r.1 = 0 ->
  ethtool_ops_ptr r.2 = Some (Table_dsa (table_content <$> ethtool_ops_ptr m))
  /\ exists m',
       dsa_master_teardown promisc' r.2 = Some m'
       /\ ethtool_ops_ptr m' = ethtool_ops_ptr m
       /\ orig_ethtool_ops m' = None
       /\ netdev_ops m' = false /\ dsa_ptr m' = false
       /\ promiscuity_delta (klog m')
          = promiscuity_delta (klog m)
            + (if promisc then 1 else 0) - (if promisc' then 1 else 0)
       /\ (promiscuity_delta (klog m') = promiscuity_delta (klog m)
           <-> promisc = promisc')
       /\ klog m'
          = klog m
              ++ [K_device_link_add; K_dev_set_mtu (int (ETH_DATA_LEN + overhead))]
              ++ (if promisc then [K_dev_set_promiscuity 1] else [])
              ++ [K_devm_kzalloc; K_sysfs_create_group; K_sysfs_remove_group;
                  K_dev_set_mtu ETH_DATA_LEN]
              ++ (if promisc' then [K_dev_set_promiscuity (-1)] else []).
Proof.
  intros r Hret.
  pose proof (dsa_master_setup_ret overhead promisc alloc_ok sysfs_ret m)
    as Hr. fold r in Hr. rewrite Hret in Hr.
  destruct alloc_ok; [|discriminate]. subst sysfs_ret.
  subst r. unfold dsa_master_setup, dsa_master_ethtool_setup.
  cbn [negb]. change (0 =? 0) with true. cbn [negb fst snd].
  destruct promisc, promisc'; (split; [reflexivity|]); eexists;
    (split; [reflexivity|]);
    cbn -[int Z.add]; rewrite ?promiscuity_delta_app; cbn -[int Z.add];
    rewrite <- ?app_assoc; repeat split; intros; try done; lia.
Qed.

(** Under one tag protocol that wants promiscuity the requests cancel
    out; when the protocol current at teardown no longer wants it, the
    master is left with one request more than it had. *)
Lemma dsa_master_setup_teardown_witness :
  (exists m',
     dsa_master_teardown true
       (dsa_master_setup 4 true true 0 (plain_master eth_ops)).2 = Some m'
     /\ ethtool_ops_ptr m' = Some (Table_driver eth_ops)
     /\ promiscuity_delta (klog m') = 0)
  /\ (exists m',
        dsa_master_teardown false
          (dsa_master_setup 4 true true 0 (plain_master eth_ops)).2 = Some m'
        /\ ethtool_ops_ptr m' = Some (Table_driver eth_ops)
        /\ promiscuity_delta (klog m') = 1).
Proof.
  split.
  - destruct (dsa_master_setup_teardown 4 true true true 0 (plain_master eth_ops)
                eq_refl)
      as (_ & m' & Htd & Hops & _ & _ & _ & Hdelta & _).
    exists m'. split; [exact Htd|]. split; [exact Hops|exact Hdelta].
  - destruct (dsa_master_setup_teardown 4 true false true 0 (plain_master eth_ops)
                eq_refl)
      as (_ & m' & Htd & Hops & _ & _ & _ & Hdelta & _).
    exists m'. split; [exact Htd|]. split; [exact Hops|exact Hdelta].
Defined.

(** *** pvlan_show *)

Section PvlanShow.
Context {priv : Type}.
Implicit Types (ports : list (dsa_port priv)) (privs : Z -> priv).

Lemma or_unused_id (dp : dsa_port priv) : or_unused dp = dp.
Proof. destruct dp as [ds i []]; reflexivity. Qed.

Lemma shown_port_code (dp : dsa_port priv) :
  negb (type_code (dp_type dp) =? 0) = shown_port dp.
Proof. unfold shown_port. by destruct (dp_type dp). Qed.

Lemma pvlan_show_ports_answers ports privs text :
  (forall dp, dp ∈ ports -> shown_port dp = true ->
     is_Some (port_change_pvlan (ds_ops (dp_ds dp)))
     /\ is_Some (port_get_pvlan (ds_ops (dp_ds dp)))) ->
  length (pvlan_answers ports privs).1 = length (List.filter shown_port ports)
  /\ pvlan_show_ports ports privs text
     = Some (Z.of_nat (length
               (text ++ pvlan_items (dp_index <$> List.filter shown_port ports)
                          (pvlan_answers ports privs).1 ++ [nl])),
             text ++ pvlan_items (dp_index <$> List.filter shown_port ports)
                       (pvlan_answers ports privs).1 ++ [nl],
             ports, (pvlan_answers ports privs).2).
Proof.
  revert privs text. induction ports as [|dp ports IH]; intros privs text Hhooks.
  - split; [done|]. reflexivity.
  - cbn [pvlan_show_ports pvlan_answers List.filter].
    rewrite or_unused_id, shown_port_code.
    assert (Hrest : forall dp', dp' ∈ ports -> shown_port dp' = true ->
              is_Some (port_change_pvlan (ds_ops (dp_ds dp')))
              /\ is_Some (port_get_pvlan (ds_ops (dp_ds dp')))).
    { intros dp' Hin. apply Hhooks. by apply list_elem_of_further. }
    destruct (shown_port dp) eqn:Eshown; cbn [negb].
    + destruct (Hhooks dp (list_elem_of_here _ _) Eshown)
        as [[change Hchange] [get Hget]].
      rewrite Hchange, Hget.
      destruct (get (privs (ds_index (dp_ds dp))) (dp_index dp))
        as [value p] eqn:Eget.
      destruct (IH (fun k => if k =? ds_index (dp_ds dp) then p else privs k)
                  (text ++ pvlan_item (dp_index dp) value) Hrest)
        as (Hlen & Hshow).
      destruct (pvlan_answers ports _) as [values privs'].
      cbn [fst snd] in *. split; [cbn [length]; lia|].
      rewrite Hshow. cbn [fmap list_fmap pvlan_items].
      by rewrite <- !app_assoc.
    + destruct (IH privs text Hrest) as (Hlen & Hshow).
      split; [done|]. by rewrite Hshow.
Qed.

Lemma pvlan_answers_readers ports privs privs0 :
  (forall k, privs k = privs0 k) ->
  (forall dp, dp ∈ ports -> shown_port dp = true ->
     is_Some (port_get_pvlan (ds_ops (dp_ds dp)))) ->
  (forall dp get p i, dp ∈ ports ->
     port_get_pvlan (ds_ops (dp_ds dp)) = Some get -> (get p i).2 = p) ->
  (pvlan_answers ports privs).1
  = pvlan_answer privs0 <$> List.filter shown_port ports
  /\ (forall k, (pvlan_answers ports privs).2 k = privs0 k).
Proof.
  revert privs. induction ports as [|dp ports IH]; intros privs Heq Hhooks Hread.
  - by split.
  - cbn [pvlan_answers List.filter].
    assert (Hrest : forall dp', dp' ∈ ports -> shown_port dp' = true ->
              is_Some (port_get_pvlan (ds_ops (dp_ds dp')))).
    { intros dp' Hin. apply Hhooks. by apply list_elem_of_further. }
    assert (Hread' : forall dp' get p i, dp' ∈ ports ->
              port_get_pvlan (ds_ops (dp_ds dp')) = Some get -> (get p i).2 = p).
    { intros dp' get p i Hin. apply Hread. by apply list_elem_of_further. }
    destruct (shown_port dp) eqn:Eshown; [|by apply IH].
    destruct (Hhooks dp (list_elem_of_here _ _) Eshown) as [get Hget].
    rewrite Hget.
    pose proof (Hread dp get (privs (ds_index (dp_ds dp))) (dp_index dp)
                  (list_elem_of_here _ _) Hget) as Hp.
    destruct (get (privs (ds_index (dp_ds dp))) (dp_index dp))
      as [value p] eqn:Eget.
    cbn [snd] in Hp. subst p.
    destruct (IH (fun k => if k =? ds_index (dp_ds dp)
                           then privs (ds_index (dp_ds dp)) else privs k))
      as (Hvalues & Hprivs); [|done|done|].
    { intros k. destruct (Z.eqb_spec k (ds_index (dp_ds dp))) as [->|]; apply Heq. }
    destruct (pvlan_answers ports _) as [values privs'].
    cbn [fst snd] in *. split; [|done].
    cbn [fmap list_fmap]. rewrite Hvalues. f_equal.
    unfold pvlan_answer. by rewrite Hget, <- Heq, Eget.
Qed.

(** X18: when the switch driver of every port that is not unused has
    the two pvlan hooks, pvlan_show prints one "index:value " item for
    every port that is not unused, in the order of the tree's port list,
    nothing for an unused port, and a final newline; it returns the
    length of the text. The value of an item is what port_get_pvlan
    answered for that port, the calls being made in the order of the
    list, each on the private data that the calls before it left; when
    the getters leave the private data as they find it, it is the
    answer for that port on the private data of the port's switch as
    they were before the read, which are then unchanged. The port types are
    what they were: the [|=] of the port-type test ors in
    DSA_PORT_TYPE_UNUSED, which is 0. *)
Theorem pvlan_show_lists_used ports privs :
  (forall dp, dp ∈ ports -> shown_port dp = true ->
     is_Some (port_change_pvlan (ds_ops (dp_ds dp)))
     /\ is_Some (port_get_pvlan (ds_ops (dp_ds dp)))) ->
  let shown := List.filter shown_port ports in
  let answers := pvlan_answers ports privs in
  let text := pvlan_items (dp_index <$> shown) answers.1 ++ [nl] in
  length answers.1 = length shown
  /\ pvlan_show ports privs
     = Some (Z.of_nat (length text), text, ports, answers.2)
  /\ ((forall dp get p i, dp ∈ ports ->
         port_get_pvlan (ds_ops (dp_ds dp)) = Some get -> (get p i).2 = p) ->
      answers.1 = pvlan_answer privs <$> shown
      /\ forall k, answers.2 k = privs k).
Proof.
  intros Hhooks shown answers text.
  destruct (pvlan_show_ports_answers ports privs [] Hhooks) as (Hlen & Hshow).
  split; [exact Hlen|]. split; [exact Hshow|].
  intros Hread. apply pvlan_answers_readers; [done| |done].
  intros dp Hin Hs. by destruct (Hhooks dp Hin Hs).
Qed.

End PvlanShow.

(** The fixture tree with port p in the port VLAN 0x100 + p: the user
    ports 0-3 and the CPU port 8 are shown with their own values, the
    unused port 4 is not. *)
Lemma pvlan_show_lists_used_witness :
  exists privs',
    pvlan_show (tree_ports sw0) (fun _ => numbered_priv)
    = Some (31, list_ascii_of_string "0:100 1:101 2:102 3:103 8:108 " ++ [nl],
            tree_ports sw0, privs')
    /\ forall k, privs' k = numbered_priv.
Proof.
  assert (Hhooks : forall dp, dp ∈ tree_ports sw0 -> shown_port dp = true ->
            is_Some (port_change_pvlan (ds_ops (dp_ds dp)))
            /\ is_Some (port_get_pvlan (ds_ops (dp_ds dp)))).
  { intros dp Hin _. apply list_elem_of_In in Hin. simpl in Hin.
    destruct Hin as [<-|[<-|[<-|[<-|[<-|[<-|[]]]]]]]; split; by eexists. }
  destruct (pvlan_show_lists_used (tree_ports sw0) (fun _ => numbered_priv) Hhooks)
    as (_ & Hshow & Hread).
  exists (pvlan_answers (tree_ports sw0) (fun _ => numbered_priv)).2.
  split; [exact Hshow|].
  apply Hread. intros dp get p i Hin Hget.
  apply list_elem_of_In in Hin. simpl in Hin.
  destruct Hin as [<-|[<-|[<-|[<-|[<-|[<-|[]]]]]]];
    injection Hget as <-; reflexivity.
Defined.

(** *** The port tag *)

(** X19: for a port index from 100 to 999 the buffer of four bytes cuts
    the number after its second digit: the tag is 'p', the first two
    digits of the index and '_', which is the tag of the index divided
    by ten (port 123 is tagged "p12_", as port 12 is). *)
Theorem port_pfx_truncates (port : Z) :
  100 <= port <= 999 ->
  port_pfx port = port_pfx (port / 10)
  /\ port_pfx port
     = [byte_of "p"; 48 + port / 100; 48 + (port / 10) mod 10; byte_of "_"].
Proof.
  intros Hport.
  assert (Hall : forallb
    (fun n => bool_decide
       (port_pfx n = port_pfx (n / 10)
        /\ port_pfx n
           = [byte_of "p"; 48 + n / 100; 48 + (n / 10) mod 10; byte_of "_"]))
    ((fun k => Z.of_nat k + 100) <$> seq 0 900) = true)
    by (vm_compute; reflexivity).
  rewrite forallb_forall in Hall.
  eapply bool_decide_eq_true_1, Hall.
  apply list_elem_of_In, list_elem_of_fmap. exists (Z.to_nat (port - 100)).
  split; [lia|]. apply elem_of_seq. lia.
Qed.

Lemma port_pfx_truncates_witness :
  port_pfx 123 = port_pfx 12
  /\ port_pfx 123 = [byte_of "p"; 49; 50; byte_of "_"].
Proof. exact (port_pfx_truncates 123 ltac:(lia)). Defined.

(** *** What pvlan_show prints, pvlan_store reads *)

Section Scan.

Lemma digit_char_plain d :
  0 <= d < 16 ->
  isspace (digit_char d) = false
  /\ Ascii.eqb (digit_char d) "-" = false
  /\ Ascii.eqb (digit_char d) "x" = false
  /\ Ascii.eqb (digit_char d) "X" = false.
Proof.
  intros Hd.
  assert (Hall : forallb
    (fun n => bool_decide
       (isspace (digit_char n) = false
        /\ Ascii.eqb (digit_char n) "-" = false
        /\ Ascii.eqb (digit_char n) "x" = false
        /\ Ascii.eqb (digit_char n) "X" = false))
    (Z.of_nat <$> seq 0 16) = true) by (vm_compute; reflexivity).
  rewrite forallb_forall in Hall.
  eapply bool_decide_eq_true_1, Hall.
  apply list_elem_of_In, list_elem_of_fmap. exists (Z.to_nat d). split; [lia|].
  apply elem_of_seq. lia.
Qed.

Lemma digit_val_base base d :
  0 <= d < base -> base <= 16 -> digit_val base (digit_char d) = Some d.
Proof.
  intros Hd Hb.
  pose proof (digit_val_digit_char d ltac:(lia)) as H16.
  unfold digit_val in *. cbv zeta in *.
  destruct (_ <? 16); [|discriminate]. injection H16 as ->.
  destruct (Z.ltb_spec d base); [done|lia].
Qed.

Lemma digits_rev_chars base fuel v :
  0 < base -> Forall (digit_of base) (digits_rev base fuel v).
Proof.
  intros Hb. revert v. induction fuel as [|fuel IH]; intros v; [constructor|].
  cbn [digits_rev]. constructor.
  - exists (v mod base). split; [by apply Z.mod_pos_bound|done].
  - destruct (v / base =? 0); [constructor|apply IH].
Qed.

Lemma digits_chars base v : 0 < base -> Forall (digit_of base) (digits base v).
Proof.
  intros Hb. unfold digits. apply Forall_forall. intros ch Hin.
  apply list_elem_of_In, in_rev, list_elem_of_In in Hin.
  by apply (proj1 (Forall_forall _ _) (digits_rev_chars base 64 v Hb)).
Qed.

Lemma digits_nonempty base v : digits base v <> [].
Proof.
  unfold digits. intros H. apply (f_equal (@length ascii)) in H.
  rewrite length_rev in H. cbn in H. lia.
Qed.

Lemma parse_digits_rev_base base fuel v rest acc :
  2 <= base <= 16 -> 0 <= v < base ^ Z.of_nat fuel ->
  parse_digits base (rev (digits_rev base fuel v) ++ rest) acc
  = parse_digits base rest
      (acc * base ^ Z.of_nat (length (digits_rev base fuel v)) + v).
Proof.
  intros Hb. revert v rest acc.
  induction fuel as [|fuel IH]; intros v rest acc Hv.
  - change (base ^ Z.of_nat 0) with 1 in Hv.
    cbn [digits_rev rev app length].
    replace v with 0 by lia. f_equal. change (Z.of_nat 0) with 0.
    rewrite Z.pow_0_r. lia.
  - rewrite Nat2Z.inj_succ, Z.pow_succ_r in Hv by lia.
    assert (Hd : 0 <= v mod base < base) by (apply Z.mod_pos_bound; lia).
    assert (Hq : 0 <= v / base < base ^ Z.of_nat fuel).
    { split; [apply Z.div_pos; lia | apply Z.div_lt_upper_bound; lia]. }
    pose proof (Z.div_mod v base ltac:(lia)) as Hdm.
    cbn [digits_rev].
    destruct (Z.eqb_spec (v / base) 0) as [Hz|Hnz].
    + cbn [rev app length parse_digits]. rewrite digit_val_base by lia.
      f_equal. change (Z.of_nat 1) with 1. rewrite Z.pow_1_r. nia.
    + cbn [rev length]. rewrite <- app_assoc, IH by done.
      cbn [app parse_digits]. rewrite digit_val_base by lia.
      f_equal. rewrite Nat2Z.inj_succ, Z.pow_succ_r by lia. nia.
Qed.

Lemma parse_digits_zeros base n l acc :
  0 < base <= 16 -> acc = 0 ->
  parse_digits base (replicate n "0"%char ++ l) acc = parse_digits base l 0.
Proof.
  intros Hb ->. induction n as [|n IH]; [done|].
  cbn [replicate app parse_digits].
  assert (digit_val base "0" = Some 0) as ->.
  { change "0"%char with (digit_char 0). apply digit_val_base; lia. }
  replace (0 * base + 0) with 0 by lia. exact IH.
Qed.

(** Scanning a number that was printed with zero padding, followed by a
    character that is no digit. *)
Lemma scan_int_printed (c : conv) (n : nat) (v : Z) (stop : ascii)
    (rest : list ascii) :
  0 <= v < 2 ^ 64 ->
  digit_val (conv_base c) stop = None ->
  (conv_base c = 10 \/ (2 <= n + length (digits (conv_base c) v))%nat) ->
  scan_int c (replicate n "0"%char ++ digits (conv_base c) v ++ stop :: rest)
  = Some (conv_store c v, stop :: rest).
Proof.
  intros Hv Hstop Hfix.
  assert (Hb : 2 <= conv_base c <= 16) by (destruct c; cbn; lia).
  set (base := conv_base c) in *.
  set (l := replicate n "0"%char ++ digits base v).
  assert (Hl : Forall (digit_of base) l).
  { apply Forall_app. split; [|apply digits_chars; lia].
    apply Forall_forall. intros ch Hin. apply elem_of_replicate in Hin as [-> _].
    exists 0. split; [lia|done]. }
  assert (Hne : l <> []).
  { subst l. pose proof (digits_nonempty base v).
    destruct n, (digits base v); done. }
  assert (Hparse : parse_digits base (l ++ stop :: rest) 0 = (v, stop :: rest)).
  { subst l. rewrite <- app_assoc, parse_digits_zeros by (lia || done).
    unfold digits. rewrite parse_digits_rev_base.
    - cbn [parse_digits]. rewrite Hstop. f_equal; lia.
    - done.
    - split; [lia|]. destruct Hv as [_ Hv].
      eapply Z.lt_le_trans; [exact Hv|].
      transitivity (2 ^ Z.of_nat 64); [done|].
      apply Z.pow_le_mono_l. lia. }
  rewrite app_assoc. fold l.
  destruct l as [|ch l'] eqn:El; [done|].
  assert (Hch : digit_of base ch) by (by inversion Hl).
  destruct Hch as (d & Hd & ->).
  destruct (digit_char_plain d ltac:(lia)) as (Hsp & Hminus & _ & _).
  unfold scan_int. cbn [app skip_spaces]. rewrite Hsp.
  rewrite Hminus, andb_false_r. fold base.
  rewrite digit_val_base by lia.
  assert (Hradix : fixup_radix base (digit_char d :: l' ++ stop :: rest)
                   = digit_char d :: l' ++ stop :: rest).
  { unfold fixup_radix. destruct l' as [|c1 l''].
    - destruct Hfix as [H10|Hlen].
      + cbn [app]. rewrite H10. done.
      + exfalso. apply (f_equal (@length ascii)) in El.
        unfold l in El. rewrite length_app, length_replicate in El.
        cbn [length] in El. lia.
    - cbn [app].
      assert (Hc1 : digit_of base c1).
      { inversion Hl as [|? ? _ Hl']. by inversion Hl'. }
      destruct Hc1 as (d1 & Hd1 & ->).
      destruct (digit_char_plain d1 ltac:(lia)) as (_ & _ & Hx & HX).
      by rewrite Hx, HX, andb_false_r. }
  rewrite Hradix. cbn [app] in Hparse. rewrite Hparse. done.
Qed.

(** X20: an item that pvlan_show prints for a port index from 0 to
    2^31 - 1 and a 16-bit value, followed by anything, is read by
    pvlan_store's sscanf as exactly that index and that value. *)
Theorem pvlan_item_scans_back (index value : Z) (rest : list ascii) :
  0 <= index < 2 ^ 31 ->
  vsscanf pvlan_fmt (pvlan_item index value ++ rest) = [index; u16 value].
Proof.
  intros Hi.
  set (pad := replicate (3 - length (digits 16 (u16 value))) "0"%char).
  assert (Hitem : pvlan_item index value ++ rest
                  = digits 10 index
                      ++ ":"%char :: pad ++ digits 16 (u16 value)
                      ++ " "%char :: rest).
  { unfold pvlan_item. rewrite int_small by lia.
    unfold fmt_d, fmt_d_prec, fmt_03hx, zero_pad.
    destruct (Z.ltb_spec index 0) as [|_]; [lia|].
    rewrite Nat.sub_0_l. cbn [replicate app]. fold pad.
    rewrite <- !app_assoc. cbn [app]. by rewrite <- !app_assoc. }
  rewrite Hitem. clear Hitem.
  assert (Hscan_d :
    scan_int Conv_d (digits 10 index ++ ":"%char :: pad
                       ++ digits 16 (u16 value) ++ " "%char :: rest)
    = Some (index, ":"%char :: pad ++ digits 16 (u16 value) ++ " "%char :: rest)).
  { pose proof (scan_int_printed Conv_d 0 index ":"
      (pad ++ digits 16 (u16 value) ++ " "%char :: rest)) as H.
    cbn [replicate app conv_base conv_store] in H.
    rewrite H; [|lia|done|by left].
    by rewrite int_small by lia. }
  assert (Hu16 : 0 <= u16 value < 2 ^ 16).
  { unfold u16, wrap_u. apply Z.mod_pos_bound. lia. }
  assert (Hscan_x :
    scan_int Conv_hx (pad ++ digits 16 (u16 value) ++ " "%char :: rest)
    = Some (u16 value, " "%char :: rest)).
  { pose proof (scan_int_printed Conv_hx
                  (3 - length (digits 16 (u16 value))) (u16 value) " " rest) as H.
    cbn [conv_base conv_store] in H. fold pad in H.
    rewrite H; [|lia|done|right; lia].
    unfold u16. by rewrite wrap_u_wrap_u by lia. }
  unfold pvlan_fmt. cbn [vsscanf].
  rewrite Hscan_d.
  assert (Hne10 : digits 10 index ++ ":"%char :: pad
                    ++ digits 16 (u16 value) ++ " "%char :: rest <> []).
  { pose proof (digits_nonempty 10 index). by destruct (digits 10 index). }
  destruct (digits 10 index ++ _) as [|c0 l0]; [done|].
  change (Ascii.eqb ":" ":") with true. cbv iota.
  rewrite Hscan_x.
  assert (Hne16 : pad ++ digits 16 (u16 value) ++ " "%char :: rest <> []).
  { pose proof (digits_nonempty 16 (u16 value)).
    destruct pad, (digits 16 (u16 value)); done. }
  by destruct (pad ++ _).
Qed.

Lemma pvlan_item_scans_back_witness :
  vsscanf pvlan_fmt (pvlan_item 3 0x0A5 ++ list_ascii_of_string "8:1ff ")
  = [3; 0x0A5].
Proof. exact (pvlan_item_scans_back 3 0x0A5 _ ltac:(lia)). Defined.

End Scan.

End Master_ext_props.
